(** * zkevm-data-streamer: stream server, result codec and stream client

    A shallow embedding of the data streamer's Go sources:
    - the server ([ServerStream], its command loop, the result entry codec and
      the transaction interface), and
    - the client's command path ([StreamClient.ExecCommand]).

    Unsigned machine integers are integers in [Z] with the wrap-around written
    out; byte slices are [list byte]; Go strings are [string]; the [clients]
    map is a [gmap]; [net.Conn] is an interface, rendered as a type class. *)

From Stdlib Require Import ZArith Lia List String.
From Stdlib Require Import Strings.Byte.
From stdpp Require Import gmap strings list functions.

Local Open Scope Z_scope.

(** ** Machine integers *)

Definition u8 (z : Z) : Z := z mod 2 ^ 8.
Definition u32 (z : Z) : Z := z mod 2 ^ 32.
Definition u64 (z : Z) : Z := z mod 2 ^ 64.

(** [byte(v)]: the conversion of an unsigned integer to [uint8] keeps the low
    eight bits. *)
Definition byte_of_Z (z : Z) : byte :=
  match Byte.of_N (Z.to_N (u8 z)) with
  | Some b => b
  | None => "000"%byte
  end.

(** [uint32(b)], [uint64(b)] of a byte. *)
Definition Z_of_byte (b : byte) : Z := Z.of_N (Byte.to_N b).

(** Go's [error] values are modelled by their message; [nil] is [None]. *)
Definition error : Type := string.

(** [[]byte(s)] *)
Definition bytes_of_string (s : string) : list byte := list_byte_of_string s.

(** ** encoding/binary, big endian *)

Module BigEndian.

(** [binary.BigEndian.AppendUint32(b, v)] *)
Definition AppendUint32 (b : list byte) (v : Z) : list byte :=
  b ++ [ byte_of_Z (Z.shiftr v 24); byte_of_Z (Z.shiftr v 16);
         byte_of_Z (Z.shiftr v 8); byte_of_Z v ].

(** [binary.BigEndian.Uint32(b)]; [None] is the run-time panic of the
    bounds check [_ = b[3]]. *)
Definition Uint32 (b : list byte) : option Z :=
  match b with
  | b0 :: b1 :: b2 :: b3 :: _ =>
      Some (Z.lor (Z.lor (Z.lor (Z_of_byte b3) (Z.shiftl (Z_of_byte b2) 8))
                         (Z.shiftl (Z_of_byte b1) 16))
                  (Z.shiftl (Z_of_byte b0) 24))
  | _ => None
  end.

(** [binary.BigEndian.PutUint64(b, v)] on a buffer of exactly eight
    bytes, as [writeFullUint64] uses it. *)
Definition PutUint64 (v : Z) : list byte :=
  [ byte_of_Z (Z.shiftr v 56); byte_of_Z (Z.shiftr v 48);
    byte_of_Z (Z.shiftr v 40); byte_of_Z (Z.shiftr v 32);
    byte_of_Z (Z.shiftr v 24); byte_of_Z (Z.shiftr v 16);
    byte_of_Z (Z.shiftr v 8); byte_of_Z v ].

(** [binary.Read(r, binary.BigEndian, &value)] for a [uint64] value. *)
Definition Uint64 (b : list byte) : option Z :=
  match b with
  | b0 :: b1 :: b2 :: b3 :: b4 :: b5 :: b6 :: b7 :: _ =>
      Some (Z.lor (Z.lor (Z.lor (Z.lor (Z.lor (Z.lor (Z.lor
        (Z_of_byte b7)
        (Z.shiftl (Z_of_byte b6) 8))
        (Z.shiftl (Z_of_byte b5) 16))
        (Z.shiftl (Z_of_byte b4) 24))
        (Z.shiftl (Z_of_byte b3) 32))
        (Z.shiftl (Z_of_byte b2) 40))
        (Z.shiftl (Z_of_byte b1) 48))
        (Z.shiftl (Z_of_byte b0) 56))
  | _ => None
  end.

End BigEndian.

(** ** Result entries and their codec *)

Record ResultEntry := mkResultEntry {
  isEntry : byte;          (* 0xff: Result *)
  length : Z;              (* uint32 *)
  errorNum : Z;            (* uint32, 0:No error *)
  errorStr : list byte;
}.

(** The zero value [ResultEntry{}]. *)
Definition ResultEntry_zero : ResultEntry :=
  {| isEntry := "000"%byte; length := 0; errorNum := 0; errorStr := [] |}.

Definition encodeResultEntryToBinary (e : ResultEntry) : list byte :=
  let be := [ isEntry e ] in
  let be := BigEndian.AppendUint32 be (length e) in
  let be := BigEndian.AppendUint32 be (errorNum e) in
  let be := be ++ errorStr e in
  be.

(** [b[i:j]] and [b[i:]] for indices within bounds. *)
Definition slice {A} (b : list A) (i j : nat) : list A := take (j - i) (drop i b).
Definition slice_from {A} (b : list A) (i : nat) : list A := drop i b.

(** The decoder returns the entry it has filled so far next to the error,
    as the Go function does. The two [Uint32] calls cannot panic after the
    length guard; the model keeps the zero field in that case. *)
Definition DecodeBinaryToResultEntry (b : list byte) : ResultEntry * option error :=
  let e := ResultEntry_zero in
  if Z.of_nat (List.length b) <? 10 then
    (e, Some "invalid binary result entry"%string)
  else
    let e := {| isEntry := List.nth 0 b "000"%byte;
                length := default 0 (BigEndian.Uint32 (slice b 1 5));
                errorNum := default 0 (BigEndian.Uint32 (slice b 5 9));
                errorStr := slice_from b 9 |} in
    if negb (u32 (Z.of_nat (List.length (errorStr e))) =? u32 (length e - 1 - 4 - 4)) then
      (e, Some "error decoding binary result entry"%string)
    else
      (e, None).

(** ** Outcomes of a call

    A Go call returns, panics, or waits on a channel nobody has written to. *)

Inductive outcome (A : Type) : Type :=
| Ret (a : A)
| Panic
| Blocked.
Arguments Ret {A} a.
Arguments Panic {A}.
Arguments Blocked {A}.

#[export] Instance outcome_ret : MRet outcome := @Ret.
#[export] Instance outcome_bind : MBind outcome := λ A B k m,
  match m with
  | Ret a => k a
  | Panic => Panic
  | Blocked => Blocked
  end.

(** ** net.Conn

    The connection is an interface in the source; the part of it the code
    calls is a class. [conn_Write c b] is the connection after the call and
    the error the call returned. *)

Class NetConn (C : Type) := {
  conn_Write : C -> list byte -> C * option error;
  conn_Close : C -> C;
  conn_RemoteAddr : C -> string;
}.

(** A connection value in Go is a reference; [connRef] names it and the
    store [connRef -> C] holds what it refers to. *)
Abbreviation connRef := nat.

(** A connection that records what was written to it, for running the model. *)
Record wire := mkWire {
  wire_addr : string;
  wire_sent : list byte;
  wire_closed : bool;
}.

#[export] Instance wire_NetConn : NetConn wire := {|
  conn_Write w b :=
    if wire_closed w then (w, Some "use of closed network connection"%string)
    else ({| wire_addr := wire_addr w; wire_sent := wire_sent w ++ b;
             wire_closed := false |}, None);
  conn_Close w :=
    {| wire_addr := wire_addr w; wire_sent := wire_sent w; wire_closed := true |};
  conn_RemoteAddr w := wire_addr w;
|}.

(** ** The stream server *)

(* Stream type *)
Definition StSequencer : Z := 1.

(* Commands *)
Definition CmdStart : Z := 1.
Definition CmdStop : Z := 2.
Definition CmdHeader : Z := 3.

(* Client status *)
Definition csStarted : Z := 1.
Definition csStopped : Z := 2.

(* Transaction status *)
Definition txNone : Z := 0.
Definition txStarted : Z := 1.
Definition txCommitting : Z := 2.

Record txStream := mkTxStream {
  tx_status : Z;        (* uint8, field [status] *)
  txAfterEntry : Z;     (* uint64 *)
}.

Record clientStream := mkClientStream {
  conn : option connRef;   (* [nil] is [None] *)
  status : Z;              (* uint8 *)
}.

(** The zero value, which a Go map lookup yields for a key that is absent. *)
Definition clientStream_zero : clientStream := {| conn := None; status := 0 |}.

(** The packet [sendResultEntry] builds from an error number and text. *)
Definition resultPacket (errorNum : Z) (errorStr : string) : list byte :=
  let byteSlice := bytes_of_string errorStr in
  encodeResultEntryToBinary
    {| isEntry := "255"%byte;
       length := u32 (Z.of_nat (List.length byteSlice) + 1 + 4 + 4);
       errorNum := errorNum;
       errorStr := byteSlice |}.

Section Server.

Context {C : Type} `{NetConn C}.

(** The stream file lives in another file of the package. *)
Variable FileStream : Type.
Variable PrepareStreamFile : string -> Z -> FileStream * option error.

(** The listener [ln] plays no part in the functions embedded here and is
    left out of the record. *)
Record ServerStream := mkServerStream {
  port : Z;                              (* uint16 *)
  fileName : string;
  streamType : Z;                        (* uint64 *)
  clients : gmap string clientStream;
  lastEntry : Z;                         (* uint64 *)
  tx : txStream;
  fs : FileStream;
}.

Definition set_lastEntry (v : Z) (s : ServerStream) : ServerStream :=
  {| port := port s; fileName := fileName s; streamType := streamType s;
     clients := clients s; lastEntry := v; tx := tx s; fs := fs s |}.

Definition set_tx (t : txStream) (s : ServerStream) : ServerStream :=
  {| port := port s; fileName := fileName s; streamType := streamType s;
     clients := clients s; lastEntry := lastEntry s; tx := t; fs := fs s |}.

Definition set_clients (m : gmap string clientStream) (s : ServerStream) : ServerStream :=
  {| port := port s; fileName := fileName s; streamType := streamType s;
     clients := m; lastEntry := lastEntry s; tx := tx s; fs := fs s |}.

Definition set_status (v : Z) (c : clientStream) : clientStream :=
  {| conn := conn c; status := v |}.

(** [s.clients[clientId]] *)
Definition clients_at (s : ServerStream) (clientId : string) : clientStream :=
  default clientStream_zero (clients s !! clientId).

Definition New (port : Z) (fileName : string) : ServerStream * option error :=
  let streamType := StSequencer in
  let '(fs, err) := PrepareStreamFile fileName streamType in
  ({| port := port; fileName := fileName;
      streamType := streamType;
      clients := ∅;
      lastEntry := 0;
      tx := {| tx_status := txNone; txAfterEntry := 0 |};
      fs := fs |}, err).

(** *** Internal interface *)

Definition StartStreamTx (s : ServerStream) : ServerStream * option error :=
  let s := set_tx {| tx_status := txStarted; txAfterEntry := txAfterEntry (tx s) |} s in
  let s := set_tx {| tx_status := tx_status (tx s); txAfterEntry := lastEntry s |} s in
  (s, None).

Definition AddStreamEntry (s : ServerStream) (etype : Z) (data : list byte)
  : ServerStream * (Z * option error) :=
  let s := set_lastEntry (u64 (lastEntry s + 1)) s in
  (s, (lastEntry s, None)).

Definition CommitStreamTx (s : ServerStream) : ServerStream * option error :=
  let s := set_tx {| tx_status := txCommitting; txAfterEntry := txAfterEntry (tx s) |} s in
  let s := set_tx {| tx_status := txNone; txAfterEntry := txAfterEntry (tx s) |} s in
  (s, None).

(** The server after the calls [AddStreamEntry(etype, data)] for the
    pairs of [ds], in order. *)
Definition afterEntries (s : ServerStream) (ds : list (Z * list byte)) : ServerStream :=
  fold_left (fun s d => fst (AddStreamEntry s (fst d) (snd d))) ds s.

(** *** Command handling *)

(** [readFullUint64]: the value, the error, and what is left to read.
    [io.ReadFull] fails with [io.EOF] when nothing could be read and with
    [io.ErrUnexpectedEOF] when the input ends inside the eight bytes. *)
Definition readFullUint64 (reader : list byte) : Z * option error * list byte :=
  if (List.length reader <? 8)%nat then
    (0, Some (match reader with [] => "EOF" | _ => "unexpected EOF" end)%string, [])
  else
    (default 0 (BigEndian.Uint64 (take 8 reader)), None, drop 8 reader).

(** The store once [b] has been written to the connection [h]. *)
Definition written (h : connRef) (b : list byte) (net : connRef -> C) : connRef -> C :=
  <[h := fst (conn_Write (net h) b)]> net.

(** Send the response to a command that is a result entry. The buffered
    writer hands the bytes to the connection on [Flush]; on a [nil]
    connection that call panics. The write error is printed and dropped. *)
Definition sendResultEntry (s : ServerStream) (errorNum : Z) (errorStr : string)
    (clientId : string) (net : connRef -> C) : outcome ((connRef -> C) * option error) :=
  let byteSlice := bytes_of_string errorStr in
  let entry := {| isEntry := "255"%byte;
                  length := u32 (Z.of_nat (List.length byteSlice) + 1 + 4 + 4);
                  errorNum := errorNum;
                  errorStr := byteSlice |} in
  let binaryEntry := encodeResultEntryToBinary entry in
  match conn (clients_at s clientId) with
  | None => Panic
  | Some h => Ret (written h binaryEntry net, @None error)
  end.

(** [processCommand]: [client] is a copy of the map entry, a local
    variable; the assignments to [client.status] change the copy. *)
Definition processCommand (s : ServerStream) (command : Z) (clientId : string)
    (net : connRef -> C) : outcome (ServerStream * (connRef -> C) * option error) :=
  let client := clients_at s clientId in
  let err : option error := None in
  let errNum : Z := 0 in
  let '(client, err) :=
    if command =? CmdStart then
      if negb (status client =? csStopped) then
        (client, Some "client already started"%string)
      else
        (set_status csStarted client, err)
    else if command =? CmdStop then
      if negb (status client =? csStarted) then
        (client, Some "client already stopped"%string)
      else
        (set_status csStopped client, err)
    else if command =? CmdHeader then
      if negb (status client =? csStopped) then
        (client, Some "header command not allowed"%string)
      else
        (client, err)
    else
      (client, Some "invalid command"%string) in
  let errStr := match err with Some e => e | None => "OK"%string end in
  '(net, err) ← sendResultEntry s errNum errStr clientId net;
  Ret (s, net, err).

(** How one turn of the loop in [handleConnection] ends. *)
Inductive turn := Continue | Return.

(** The body of the loop once both words have been read. *)
Definition handleCommand (s : ServerStream) (clientId : string) (command st : Z)
    (net : connRef -> C) : outcome (ServerStream * (connRef -> C) * turn) :=
  if negb (st =? streamType s) then
    Ret (s, net, Return)
  else
    '(s, net, err) ← processCommand s command clientId net;
    match err with
    | Some _ => Ret (s, net, Return)   (* Kill client connection *)
    | None => Ret (s, net, Continue)
    end.

(** The [for] loop of [handleConnection] over the bytes the client sends.
    Each turn reads sixteen bytes, so [fuel] above the number of bytes
    left is never used up. *)
Fixpoint serve (fuel : nat) (s : ServerStream) (clientId : string)
    (reader : list byte) (net : connRef -> C) : outcome (ServerStream * (connRef -> C)) :=
  match fuel with
  | O => Ret (s, net)
  | S fuel =>
      let '(command, err, reader) := readFullUint64 reader in
      match err with
      | Some _ => Ret (s, net)
      | None =>
          let '(st, err, reader) := readFullUint64 reader in
          match err with
          | Some _ => Ret (s, net)
          | None =>
              '(s, net, t) ← handleCommand s clientId command st net;
              match t with
              | Return => Ret (s, net)
              | Continue => serve fuel s clientId reader net
              end
          end
      end
  end.

Definition handleConnection_loop (s : ServerStream) (clientId : string)
    (reader : list byte) (net : connRef -> C) : outcome (ServerStream * (connRef -> C)) :=
  serve (S (List.length reader)) s clientId reader net.

(** [handleConnection(conn)] on the bytes [reader] that arrive on the
    connection; the deferred [conn.Close()] runs when the loop returns. *)
Definition handleConnection (s : ServerStream) (h : connRef) (reader : list byte)
    (net : connRef -> C) : outcome (ServerStream * (connRef -> C)) :=
  let clientId := conn_RemoteAddr (net h) in
  let client := {| conn := Some h; status := csStopped |} in
  let s := set_clients (<[clientId := client]> (clients s)) s in
  '(s, net) ← handleConnection_loop s clientId reader net;
  Ret (s, <[h := conn_Close (net h)]> net).

(** *** Runs of the server

    The connections are served by one goroutine each and the internal
    interface is called by the producer, all on the same [ServerStream].
    A run is an interleaving of their steps on the shared state: a
    connection is accepted (the prologue of [handleConnection]), a command
    arrives on an accepted connection (one turn of its loop), or the
    producer calls the internal interface. *)
Inductive event :=
| Accept (h : connRef)
| Command (h : connRef) (command st : Z)
| StartTx
| AddEntry (etype : Z) (data : list byte)
| CommitTx.

Definition step (w : ServerStream * (connRef -> C)) (e : event)
  : outcome (ServerStream * (connRef -> C)) :=
  let '(s, net) := w in
  match e with
  | Accept h =>
      let clientId := conn_RemoteAddr (net h) in
      let client := {| conn := Some h; status := csStopped |} in
      Ret (set_clients (<[clientId := client]> (clients s)) s, net)
  | Command h command st =>
      '(s, net, t) ← handleCommand s (conn_RemoteAddr (net h)) command st net;
      match t with
      | Continue => Ret (s, net)
      | Return => Ret (s, <[h := conn_Close (net h)]> net)
      end
  | StartTx => Ret (fst (StartStreamTx s), net)
  | AddEntry etype data => Ret (fst (AddStreamEntry s etype data), net)
  | CommitTx => Ret (fst (CommitStreamTx s), net)
  end.

Fixpoint run (w : ServerStream * (connRef -> C)) (es : list event)
  : outcome (ServerStream * (connRef -> C)) :=
  match es with
  | [] => Ret w
  | e :: es => w ← step w e; run w es
  end.

(** The commands of one connection, as pairs of command and stream type,
    taken in order until a turn ends the loop. *)
Fixpoint runCommands (s : ServerStream) (clientId : string) (cs : list (Z * Z))
    (net : connRef -> C) : outcome (ServerStream * (connRef -> C) * turn) :=
  match cs with
  | [] => Ret (s, net, Continue)
  | (command, st) :: cs =>
      '(s, net, t) ← handleCommand s clientId command st net;
      match t with
      | Return => Ret (s, net, Return)
      | Continue => runCommands s clientId cs net
      end
  end.

(** What a client writes for these commands, and the words the server
    reads back from it. *)
Definition commandBytes (cs : list (Z * Z)) : list byte :=
  flat_map (fun c => BigEndian.PutUint64 (fst c) ++ BigEndian.PutUint64 (snd c)) cs.

Definition commandWords (cs : list (Z * Z)) : list (Z * Z) :=
  map (fun c => (u64 (fst c), u64 (snd c))) cs.

(** The text each command is answered with, from the status of the record
    stored for the client. *)
Definition answer (command st : Z) : string :=
  if command =? CmdStart then
    if st =? csStopped then "OK" else "client already started"
  else if command =? CmdStop then
    if st =? csStarted then "OK" else "client already stopped"
  else if command =? CmdHeader then
    if st =? csStopped then "OK" else "header command not allowed"
  else "invalid command".

(** Every client record of the table is stopped. *)
Definition all_stopped (s : ServerStream) : Prop :=
  map_Forall (fun _ c => status c = csStopped) (clients s).

End Server.

Arguments port {FileStream} s.
Arguments fileName {FileStream} s.
Arguments streamType {FileStream} s.
Arguments clients {FileStream} s.
Arguments lastEntry {FileStream} s.
Arguments tx {FileStream} s.
Arguments fs {FileStream} s.
Arguments set_lastEntry {FileStream} v s.
Arguments set_tx {FileStream} t s.
Arguments set_clients {FileStream} m s.
Arguments clients_at {FileStream} s clientId.
Arguments StartStreamTx {FileStream} s.
Arguments AddStreamEntry {FileStream} s etype data.
Arguments CommitStreamTx {FileStream} s.
Arguments sendResultEntry {C _ FileStream} s errorNum errorStr clientId net.
Arguments processCommand {C _ FileStream} s command clientId net.
Arguments handleCommand {C _ FileStream} s clientId command st net.
Arguments serve {C _ FileStream} fuel s clientId reader net.
Arguments handleConnection_loop {C _ FileStream} s clientId reader net.
Arguments handleConnection {C _ FileStream} s h reader net.
Arguments afterEntries {FileStream} s ds.
Arguments all_stopped {FileStream} s.
Arguments step {C _ FileStream} w e.
Arguments run {C _ FileStream} w es.
Arguments runCommands {C _ FileStream} s clientId cs net.
Arguments New {FileStream} PrepareStreamFile port fileName.

(** ** The stream client *)

Module Client.

(** Modelled from the spec: the constant [CmdErrOK] is declared in a file
    of the package that is not at hand; in a Result, [error_num] is
    "32-bit unsigned; 0 means OK". *)
Definition CmdErrOK : Z := 0.

Section Client.

Context {C : Type} `{NetConn C}.

(** The header entry type is declared in another file of the package. *)
Variable HeaderEntry : Type.

(** The channels hold what the reader goroutine has queued and nobody
    has taken yet; [entries] and [entriesDef] are not used by the
    command path. *)
Record StreamClient := mkStreamClient {
  server : string;
  streamType : Z;                 (* uint64 *)
  conn : option connRef;          (* [nil] until [Start] has dialled *)
  id : string;
  FromEntry : Z;                  (* uint64 *)
  Header : option HeaderEntry;    (* [None] is the zero value *)
  results : list ResultEntry;
  headers : list HeaderEntry;
}.

Definition set_results (q : list ResultEntry) (c : StreamClient) : StreamClient :=
  {| server := server c; streamType := streamType c; conn := conn c; id := id c;
     FromEntry := FromEntry c; Header := Header c; results := q;
     headers := headers c |}.

Definition set_headers (q : list HeaderEntry) (c : StreamClient) : StreamClient :=
  {| server := server c; streamType := streamType c; conn := conn c; id := id c;
     FromEntry := FromEntry c; Header := Header c; results := results c;
     headers := q |}.

Definition set_Header (h : HeaderEntry) (c : StreamClient) : StreamClient :=
  {| server := server c; streamType := streamType c; conn := conn c; id := id c;
     FromEntry := FromEntry c; Header := Some h; results := results c;
     headers := headers c |}.

Definition NewClient (server : string) (streamType : Z) : StreamClient * option error :=
  ({| server := server; streamType := streamType; conn := None; id := "";
      FromEntry := 0; Header := None; results := []; headers := [] |}, None).

(** [conn.RemoteAddr().String()]: a method call on a [nil] interface
    value panics. *)
Definition RemoteAddr (conn : option connRef) (net : connRef -> C) : outcome string :=
  match conn with
  | Some h => Ret (conn_RemoteAddr (net h))
  | None => Panic
  end.

(** [writeFullUint64]: the arguments of [log.Errorf], among them
    [conn.RemoteAddr().String()], are evaluated before the [return err]
    that follows. *)
Definition writeFullUint64 (value : Z) (conn : option connRef) (net : connRef -> C)
  : outcome ((connRef -> C) * option error) :=
  let buffer := BigEndian.PutUint64 (u64 value) in
  let '(net, err) :=
    match conn with
    | Some h => let '(c, err) := conn_Write (net h) buffer in (<[h := c]> net, err)
    | None => (net, Some "error nil connection"%string)
    end in
  match err with
  | Some e =>
      _ ← RemoteAddr conn net;
      Ret (net, Some e)
  | None => Ret (net, None)
  end.

(** Consume a result entry: [r := <-c.results]. *)
Definition getResult (c : StreamClient) (cmd : Z) : outcome (StreamClient * ResultEntry) :=
  match results c with
  | r :: q => Ret (set_results q c, r)
  | [] => Blocked
  end.

(** Consume a header entry: [h := <-c.headers]. *)
Definition getHeader (c : StreamClient) : outcome (StreamClient * HeaderEntry) :=
  match headers c with
  | h :: q => Ret (set_headers q c, h)
  | [] => Blocked
  end.

(** The three writes of [ExecCommand]: the command, the stream type
    and, for [Start], the entry to start from. The first write that
    fails ends them with its error. *)
Definition sendCommand (c : StreamClient) (cmd : Z) (net : connRef -> C)
  : outcome ((connRef -> C) * option error) :=
  (* Send command *)
  '(net, err) ← writeFullUint64 (u64 cmd) (conn c) net;
  match err with
  | Some e => Ret (net, Some e)
  | None =>
  (* Send stream type *)
  '(net, err) ← writeFullUint64 (u64 (streamType c)) (conn c) net;
  match err with
  | Some e => Ret (net, Some e)
  | None =>
  (* Send the Start command parameter *)
  if cmd =? CmdStart then
    (* Send starting/from entry number *)
    '(net, err) ← writeFullUint64 (FromEntry c) (conn c) net;
    match err with
    | Some e => Ret (net, Some e)
    | None => Ret (net, None)
    end
  else Ret (net, None)
  end end.

Definition ExecCommand (c : StreamClient) (cmd : Z) (net : connRef -> C)
  : outcome (StreamClient * (connRef -> C) * option error) :=
  (* Check valid command *)
  if (cmd <? CmdStart) || (cmd >? CmdHeader) then
    Ret (c, net, Some "invalid command"%string)
  else
  '(net, err) ← sendCommand c cmd net;
  match err with
  | Some e => Ret (c, net, Some e)
  | None =>
  (* Get command result *)
  '(c, r) ← getResult c cmd;
  if negb (errorNum r =? u32 CmdErrOK) then
    Ret (c, net, Some "result command error"%string)
  else
  (* Get header entry *)
  if cmd =? CmdHeader then
    '(c, h) ← getHeader c;
    Ret (set_Header h c, net, None)
  else
    Ret (c, net, None)
  end.

End Client.

Arguments server {HeaderEntry} s.
Arguments streamType {HeaderEntry} s.
Arguments conn {HeaderEntry} s.
Arguments id {HeaderEntry} s.
Arguments FromEntry {HeaderEntry} s.
Arguments Header {HeaderEntry} s.
Arguments results {HeaderEntry} s.
Arguments headers {HeaderEntry} s.
Arguments set_results {HeaderEntry} q c.
Arguments set_headers {HeaderEntry} q c.
Arguments set_Header {HeaderEntry} h c.
Arguments getResult {HeaderEntry} c cmd.
Arguments getHeader {HeaderEntry} c.
Arguments sendCommand {C _ HeaderEntry} c cmd net.
Arguments ExecCommand {C _ HeaderEntry} c cmd net.

End Client.

(** ** A server and connections to run the model on *)

Definition demoPrepare (fileName : string) (streamType : Z) : unit * option error :=
  (tt, None).

Definition demoServer : ServerStream unit := fst (New demoPrepare 6900 "datastream.bin").

Definition demoAddr : string := "10.0.0.1:50000".

Definition demoNet : connRef -> wire := fun h =>
  {| wire_addr := match h with O => demoAddr | S _ => "10.0.0.2:50000"%string end;
     wire_sent := [];
     wire_closed := false |}.

(** The server once connection 0 has been accepted. *)
Definition demoAccepted : ServerStream unit :=
  set_clients (<[demoAddr := {| conn := Some O; status := csStopped |}]> (clients demoServer))
    demoServer.

(** A client that has dialled connection 0 and has one failure result
    queued, and a client before [Start]. *)
Definition demoFailure : ResultEntry :=
  {| isEntry := "255"%byte; length := 31; errorNum := 1;
     errorStr := bytes_of_string "client already stopped" |}.

Definition demoClient : Client.StreamClient unit :=
  {| Client.server := "10.0.0.9:6900"; Client.streamType := StSequencer;
     Client.conn := Some O; Client.id := demoAddr; Client.FromEntry := 0;
     Client.Header := None; Client.results := [demoFailure]; Client.headers := [] |}.

Definition demoNewClient : Client.StreamClient unit :=
  fst (Client.NewClient unit "10.0.0.9:6900" StSequencer).

(** ** The client's reader *)

Module ClientRead.

(** Modelled from the spec: the packet tags and the fixed sizes are
    declared in a file of the package that is not at hand. Packets are
    "tagged by a single leading byte": 0x01 Header, 0x02 Data (Entry), 0xff
    Result; the header has "fixed size 29 bytes", an entry has "fixed framing
    size" 17 bytes, and the error string of a result has "length − 9" bytes. *)
Definition PtHeader : byte := "001"%byte.
Definition PtData : byte := "002"%byte.
Definition PtResult : byte := "255"%byte.
Definition headerSize : Z := 29.
Definition FixedSizeFileEntry : Z := 17.
Definition FixedSizeResultEntry : Z := 9.

(** [io.ReadFull(c.conn, buffer)] for a buffer of [n] bytes, on the bytes
    [rd] that arrive on the connection: the bytes read, the error, and what
    is left to read. A buffer of no bytes is filled without reading. *)
Definition ReadFull (n : nat) (rd : list byte) : list byte * option error * list byte :=
  if (List.length rd <? n)%nat then
    (rd, Some (match rd with [] => "EOF" | _ => "unexpected EOF" end)%string, [])
  else
    (take n rd, None, drop n rd).

(** The capacities of the client's channels. *)
Definition resultsBuffer : nat := 32.   (* Buffers for the results channel *)
Definition headersBuffer : nat := 32.   (* Buffers for the headers channel *)
Definition entriesBuffer : nat := 128.  (* Buffers for the entries channel *)

(** What is queued in [c.results], [c.headers] and [c.entries], oldest
    first. *)
Record channels (HeaderEntry FileEntry : Type) : Type := mkChannels {
  ch_results : list ResultEntry;
  ch_headers : list HeaderEntry;
  ch_entries : list FileEntry;
}.
Arguments mkChannels {HeaderEntry FileEntry} ch_results ch_headers ch_entries.
Arguments ch_results {HeaderEntry FileEntry} c.
Arguments ch_headers {HeaderEntry FileEntry} c.
Arguments ch_entries {HeaderEntry FileEntry} c.

(** [ch <- x] on a buffered channel of capacity [cap] that holds [q],
    while no goroutine receives from it: the value is queued when there is
    room, and the sender waits when the channel is full. *)
Definition send {A} (cap : nat) (q : list A) (x : A) : outcome (list A) :=
  if (List.length q <? cap)%nat then Ret (q ++ [x]) else Blocked.

Section ClientRead.

Context {C : Type} `{NetConn C}.

(** The header and file entry types, their zero values and their decoders
    are declared in other files of the package. *)
Variables HeaderEntry FileEntry : Type.
Variable HeaderEntry_zero : HeaderEntry.
Variable FileEntry_zero : FileEntry.
Variable decodeBinaryToHeaderEntry : list byte -> HeaderEntry * option error.
Variable DecodeBinaryToFileEntry : list byte -> FileEntry * option error.

(** Read bytes from server connection and returns a file/stream data entry type *)
Definition readDataEntry (rd : list byte) : FileEntry * option error * list byte :=
  let d := FileEntry_zero in
  (* Read the rest of fixed size fields *)
  let '(buffer, err, rd) := ReadFull (Z.to_nat (FixedSizeFileEntry - 1)) rd in
  match err with
  | Some e => (d, Some e, rd)
  | None =>
      let buffer := [PtData] ++ buffer in
      (* Read variable field (data) *)
      let length := default 0 (BigEndian.Uint32 (slice buffer 1 5)) in
      if length <? FixedSizeFileEntry then
        (d, Some "error reading data entry"%string, rd)
      else
        let '(bufferAux, err, rd) :=
          ReadFull (Z.to_nat (u32 (length - FixedSizeFileEntry))) rd in
        match err with
        | Some e => (d, Some e, rd)
        | None =>
            let buffer := buffer ++ bufferAux in
            (* Decode binary data to data entry struct *)
            let '(d, err) := DecodeBinaryToFileEntry buffer in
            match err with
            | Some e => (d, Some e, rd)
            | None => (d, None, rd)
            end
        end
  end.

(** Read bytes from server connection and returns a header entry type *)
Definition readHeaderEntry (rd : list byte) : HeaderEntry * option error * list byte :=
  let h := HeaderEntry_zero in
  (* Read the rest of header bytes *)
  let '(buffer, err, rd) := ReadFull (Z.to_nat (headerSize - 1)) rd in
  match err with
  | Some e => (h, Some e, rd)
  | None =>
      if negb (Z.of_nat (List.length buffer) =? headerSize - 1) then
        (h, Some "error getting header info"%string, rd)
      else
        let buffer := [PtHeader] ++ buffer in
        (* Decode bytes stream to header entry struct *)
        let '(h, err) := decodeBinaryToHeaderEntry buffer in
        match err with
        | Some e => (h, Some e, rd)
        | None => (h, None, rd)
        end
  end.

(** Read bytes from server connection and returns a result entry type *)
Definition readResultEntry (rd : list byte) : ResultEntry * option error * list byte :=
  let e := ResultEntry_zero in
  (* Read the rest of fixed size fields *)
  let '(buffer, err, rd) := ReadFull (Z.to_nat (FixedSizeResultEntry - 1)) rd in
  match err with
  | Some er => (e, Some er, rd)
  | None =>
      let buffer := [PtResult] ++ buffer in
      (* Read variable field (errStr) *)
      let length := default 0 (BigEndian.Uint32 (slice buffer 1 5)) in
      if length <? FixedSizeResultEntry then
        (e, Some "error reading result entry"%string, rd)
      else
        let '(bufferAux, err, rd) :=
          ReadFull (Z.to_nat (u32 (length - FixedSizeResultEntry))) rd in
        match err with
        | Some er => (e, Some er, rd)
        | None =>
            let buffer := buffer ++ bufferAux in
            (* Decode binary entry result *)
            let '(e, err) := DecodeBinaryToResultEntry buffer in
            match err with
            | Some er => (e, Some er, rd)
            | None => (e, None, rd)
            end
        end
  end.

(** The loop of [readEntries] on the bytes [rd] that arrive, from the
    channels [ch], while nobody receives from them: the channels when the
    loop returns, or [Blocked] when a send finds its channel full. Each turn
    reads the tag byte at least, so [fuel] above the number of bytes left is
    never used up. *)
Fixpoint readLoop (fuel : nat) (rd : list byte) (ch : channels HeaderEntry FileEntry)
  : outcome (channels HeaderEntry FileEntry) :=
  match fuel with
  | O => Ret ch
  | S fuel =>
      (* Read packet type *)
      let '(packet, err, rd) := ReadFull 1 rd in
      match err with
      | Some _ => Ret ch
      | None =>
          (* Manage packet type *)
          let tag := List.nth 0 packet "000"%byte in
          if Byte.eqb tag PtResult then
            (* Read result entry data *)
            let '(r, err, rd) := readResultEntry rd in
            match err with
            | Some _ => Ret ch
            | None =>
                (* Send data to results channel *)
                q ← send resultsBuffer (ch_results ch) r;
                readLoop fuel rd (mkChannels q (ch_headers ch) (ch_entries ch))
            end
          else if Byte.eqb tag PtHeader then
            (* Read header entry data *)
            let '(h, err, rd) := readHeaderEntry rd in
            match err with
            | Some _ => Ret ch
            | None =>
                (* Send data to headers channel *)
                q ← send headersBuffer (ch_headers ch) h;
                readLoop fuel rd (mkChannels (ch_results ch) q (ch_entries ch))
            end
          else if Byte.eqb tag PtData then
            (* Read file/stream entry data *)
            let '(e, err, rd) := readDataEntry rd in
            match err with
            | Some _ => Ret ch
            | None =>
                (* Send data to stream entries channel *)
                q ← send entriesBuffer (ch_entries ch) e;
                readLoop fuel rd (mkChannels (ch_results ch) (ch_headers ch) q)
            end
          else
            (* Unknown type *)
            readLoop fuel rd ch
      end
  end.

(** Goroutine to read from the server all type of packets, on the bytes
    [rd] that arrive and with nobody receiving from the channels: the
    channels and the connections once the loop has returned and the
    deferred [c.conn.Close()] has run. While a send waits on a full channel
    the function has not returned and the connection is open: [Blocked]. On
    a [nil] connection the first read panics. *)
Definition readEntries (conn : option connRef) (rd : list byte)
    (ch : channels HeaderEntry FileEntry) (net : connRef -> C)
  : outcome (channels HeaderEntry FileEntry * (connRef -> C)) :=
  match conn with
  | None => Panic
  | Some h =>
      ch ← readLoop (S (List.length rd)) rd ch;
      Ret (ch, <[h := conn_Close (net h)]> net)
  end.

End ClientRead.

Arguments readDataEntry {FileEntry} FileEntry_zero DecodeBinaryToFileEntry rd.
Arguments readHeaderEntry {HeaderEntry} HeaderEntry_zero decodeBinaryToHeaderEntry rd.
Arguments readLoop {HeaderEntry FileEntry} HeaderEntry_zero FileEntry_zero
  decodeBinaryToHeaderEntry DecodeBinaryToFileEntry fuel rd ch.
Arguments readEntries {C _ HeaderEntry FileEntry} HeaderEntry_zero FileEntry_zero
  decodeBinaryToHeaderEntry DecodeBinaryToFileEntry conn rd ch net.

End ClientRead.

(** ** The demo application: fake data and the sanity check *)

Module LittleEndian.

(** [binary.LittleEndian.AppendUint16(b, v)] *)
Definition AppendUint16 (b : list byte) (v : Z) : list byte :=
  b ++ [ byte_of_Z v; byte_of_Z (Z.shiftr v 8) ].

(** [binary.LittleEndian.AppendUint32(b, v)] *)
Definition AppendUint32 (b : list byte) (v : Z) : list byte :=
  b ++ [ byte_of_Z v; byte_of_Z (Z.shiftr v 8);
         byte_of_Z (Z.shiftr v 16); byte_of_Z (Z.shiftr v 24) ].

(** [binary.LittleEndian.AppendUint64(b, v)] *)
Definition AppendUint64 (b : list byte) (v : Z) : list byte :=
  b ++ [ byte_of_Z v; byte_of_Z (Z.shiftr v 8);
         byte_of_Z (Z.shiftr v 16); byte_of_Z (Z.shiftr v 24);
         byte_of_Z (Z.shiftr v 32); byte_of_Z (Z.shiftr v 40);
         byte_of_Z (Z.shiftr v 48); byte_of_Z (Z.shiftr v 56) ].

(** [binary.LittleEndian.Uint64(b)]; [None] is the run-time panic of the
    bounds check [_ = b[7]]. *)
Definition Uint64 (b : list byte) : option Z :=
  match b with
  | b0 :: b1 :: b2 :: b3 :: b4 :: b5 :: b6 :: b7 :: _ =>
      Some (Z.lor (Z.lor (Z.lor (Z.lor (Z.lor (Z.lor (Z.lor
        (Z_of_byte b0)
        (Z.shiftl (Z_of_byte b1) 8))
        (Z.shiftl (Z_of_byte b2) 16))
        (Z.shiftl (Z_of_byte b3) 24))
        (Z.shiftl (Z_of_byte b4) 32))
        (Z.shiftl (Z_of_byte b5) 40))
        (Z.shiftl (Z_of_byte b6) 48))
        (Z.shiftl (Z_of_byte b7) 56))
  | _ => None
  end.

End LittleEndian.

Module Main.

Definition EtL2BlockStart : Z := 1.
Definition EtL2Tx : Z := 2.
Definition EtL2BlockEnd : Z := 3.

Definition bytes_of (l : list Z) : list byte := map byte_of_Z l.

Definition fakeBookmark (blockNum : Z) : list byte :=
  let bookmark := bytes_of [0] in
  let bookmark := LittleEndian.AppendUint64 bookmark blockNum in
  bookmark.

(** [now] is [uint64(time.Now().Unix())]. *)
Definition fakeDataBlockStart (now : Z) (blockNum : Z) : list byte :=
  let dataBlockStart := [] in
  let dataBlockStart := LittleEndian.AppendUint64 dataBlockStart 101 in
  let dataBlockStart := LittleEndian.AppendUint64 dataBlockStart blockNum in
  let dataBlockStart := LittleEndian.AppendUint64 dataBlockStart now in
  let dataBlockStart := dataBlockStart ++
    bytes_of [10; 11; 12; 13; 14; 15; 16; 17; 10; 11; 12; 13; 14; 15; 16; 17;
              10; 11; 12; 13; 14; 15; 16; 17; 10; 11; 12; 13; 14; 15; 16; 17] in
  let dataBlockStart := dataBlockStart ++
    bytes_of [20; 21; 22; 23; 24; 20; 21; 22; 23; 24;
              20; 21; 22; 23; 24; 20; 21; 22; 23; 24] in
  let dataBlockStart := LittleEndian.AppendUint16 dataBlockStart 5 in
  dataBlockStart.

Definition fakeDataTx : list byte :=
  let dataTx := [] in
  let dataTx := dataTx ++ bytes_of [128] in
  let dataTx := dataTx ++ bytes_of [1] in
  let dataTx := LittleEndian.AppendUint32 dataTx 5 in
  let dataTx := dataTx ++ bytes_of [1; 2; 3; 4; 5] in
  dataTx.

Definition fakeDataBlockEnd (blockNum : Z) : list byte :=
  let dataBlockEnd := [] in
  let dataBlockEnd := LittleEndian.AppendUint64 dataBlockEnd blockNum in
  let dataBlockEnd := dataBlockEnd ++
    bytes_of [0; 0; 0; 0; 0; 0; 0; 0; 0; 0; 0; 0; 0; 0; 0; 0;
              1; 2; 3; 4; 5; 6; 7; 8; 9; 10; 11; 12; 13; 14; 15; 16] in
  let dataBlockEnd := dataBlockEnd ++
    bytes_of [0; 0; 0; 0; 0; 0; 0; 0; 0; 0; 0; 0; 0; 0; 0; 0;
              1; 2; 3; 4; 5; 6; 7; 8; 9; 10; 11; 12; 13; 14; 15; 16] in
  dataBlockEnd.

(** The entry as the sanity check sees it. *)
Record FileEntry := mkFileEntry {
  Number : Z;          (* uint64 *)
  Length : Z;          (* uint32 *)
  Type_ : Z;           (* uint32, field [Type] *)
  Data : list byte;
}.

(** The package-level variables of the sanity check. *)
Record sanity := mkSanity {
  initSanityEntry : bool;
  initSanityBlock : bool;
  initSanityBookmark : bool;
  sanityEntry : Z;       (* uint64 *)
  sanityBlock : Z;       (* uint64 *)
  sanityBookmark : Z;    (* uint64 *)
}.

(** Their initial values. *)
Definition sanity_init : sanity :=
  {| initSanityEntry := false; initSanityBlock := false; initSanityBookmark := false;
     sanityEntry := 0; sanityBlock := 0; sanityBookmark := 0 |}.

(** The sequence check that blocks and bookmarks share: the number
    received, the number expected and whether a first number was seen
    before; the new expected number and flag. A mismatch is logged and the
    expected number is set from what was received. *)
Definition sequenceCheck (num expected : Z) (init : bool) : Z * bool :=
  let '(expected, init) :=
    if expected >? 0 then
      if negb (num =? expected) then (num, init) else (expected, init)
    else
      if negb (num =? 0) then
        ((if init then 0 else num), true)
      else (expected, init) in
  (u64 (expected + 1), init).

(** The entry number the check expects next: the start of the stream
    before the first call, [sanityEntry] after it. *)
Definition expectedEntry (g : sanity) (FromEntry : Z) : Z :=
  if initSanityEntry g then sanityEntry g else FromEntry.

Section Sanity.

(** The bookmark entry type is declared in the package. *)
Variable EtBookmark : Z.

(** [checkEntryBlockSanity(e, c, s)], with [c.FromEntry] and
    [c.Header.TotalEntries] for the client. A slice expression on [e.Data]
    panics when the data is shorter than its upper bound (for data whose
    capacity is its length). *)
Definition checkEntryBlockSanity (g : sanity) (e : FileEntry) (FromEntry TotalEntries : Z)
  : outcome (sanity * option error) :=
  (* Sanity check initialization *)
  let g :=
    if negb (initSanityEntry g) then
      {| initSanityEntry := true; initSanityBlock := initSanityBlock g;
         initSanityBookmark := initSanityBookmark g;
         sanityEntry := (if FromEntry >? 0 then FromEntry else 0);
         sanityBlock := sanityBlock g; sanityBookmark := sanityBookmark g |}
    else g in
  (* Sanity check for entry sequence *)
  if (if sanityEntry g >? 0 then negb (Number e =? sanityEntry g)
      else negb (Number e =? 0)) then
    Ret (g, Some "sanity check failed for entry sequence"%string)
  else
  let g := {| initSanityEntry := initSanityEntry g; initSanityBlock := initSanityBlock g;
              initSanityBookmark := initSanityBookmark g;
              sanityEntry := u64 (sanityEntry g + 1);
              sanityBlock := sanityBlock g; sanityBookmark := sanityBookmark g |} in
  (* Sanity check for block sequence *)
  g ← (if Type_ e =? EtL2BlockStart then
         if (List.length (Data e) <? 16)%nat then Panic
         else
           let blockNum := default 0 (LittleEndian.Uint64 (slice (Data e) 8 16)) in
           let '(expected, init) := sequenceCheck blockNum (sanityBlock g) (initSanityBlock g) in
           Ret {| initSanityEntry := initSanityEntry g; initSanityBlock := init;
                  initSanityBookmark := initSanityBookmark g;
                  sanityEntry := sanityEntry g;
                  sanityBlock := expected; sanityBookmark := sanityBookmark g |}
       else Ret g);
  (* Sanity check for bookmarks *)
  g ← (if Type_ e =? EtBookmark then
         if (List.length (Data e) <? 9)%nat then Panic
         else
           let bookmarkNum := default 0 (LittleEndian.Uint64 (slice (Data e) 1 9)) in
           let '(expected, init) :=
             sequenceCheck bookmarkNum (sanityBookmark g) (initSanityBookmark g) in
           Ret {| initSanityEntry := initSanityEntry g; initSanityBlock := initSanityBlock g;
                  initSanityBookmark := init;
                  sanityEntry := sanityEntry g;
                  sanityBlock := sanityBlock g; sanityBookmark := expected |}
       else Ret g);
  (* Sanity check end condition *)
  if u64 (Number e + 1) >=? TotalEntries then
    Ret (g, Some "sanity check finished"%string)
  else
    Ret (g, None).

(** The check called on the entries of a stream, one after the other,
    until it returns an error. *)
Fixpoint checkAll (g : sanity) (es : list FileEntry) (FromEntry TotalEntries : Z)
  : outcome (sanity * option error) :=
  match es with
  | [] => Ret (g, None)
  | e :: es =>
      '(g, err) ← checkEntryBlockSanity g e FromEntry TotalEntries;
      match err with
      | Some _ => Ret (g, err)
      | None => checkAll g es FromEntry TotalEntries
      end
  end.

End Sanity.

End Main.

(** ** More values to run the model on *)

Definition demoOk : ResultEntry :=
  {| isEntry := "255"%byte; length := 11; errorNum := 0;
     errorStr := bytes_of_string "OK" |}.

(** Connections that have all been closed. *)
Definition demoClosedNet : connRef -> wire := fun h => conn_Close (demoNet h).

(** A client with a success result and a header queued. *)
Definition demoClientOk : Client.StreamClient (list byte) :=
  {| Client.server := "10.0.0.9:6900"; Client.streamType := StSequencer;
     Client.conn := Some O; Client.id := demoAddr; Client.FromEntry := 7;
     Client.Header := None; Client.results := [demoOk];
     Client.headers := [ ["001"%byte] ] |}.

(** Empty channels, and channels whose results channel is full. *)
Definition demoChannels : ClientRead.channels (list byte) (list byte) :=
  ClientRead.mkChannels [] [] [].


(** Decoders that return the bytes they are given. *)
Definition demoDecode (b : list byte) : list byte * option error := (b, None).

(** Sixteen fixed bytes of a data packet of length 19, type 2, number 5. *)
Definition demoFixed : list byte :=
  BigEndian.AppendUint32 (BigEndian.AppendUint32 [] 19) 2 ++ BigEndian.PutUint64 5.

(** Entries 3, 4 and 5 of a stream: a transaction, a block start and a
    bookmark, with 176 for the bookmark entry type. *)
Definition demoEtBookmark : Z := 176.

Definition demoEntries : list Main.FileEntry :=
  [ {| Main.Number := 3; Main.Length := 28; Main.Type_ := Main.EtL2Tx;
       Main.Data := Main.fakeDataTx |};
    {| Main.Number := 4; Main.Length := 95; Main.Type_ := Main.EtL2BlockStart;
       Main.Data := Main.fakeDataBlockStart 1700000000 7 |};
    {| Main.Number := 5; Main.Length := 26; Main.Type_ := demoEtBookmark;
       Main.Data := Main.fakeBookmark 9 |} ].

(** * Properties *)

(** ** Bytes and big-endian words *)

Lemma Z_of_byte_range (b : byte) : 0 <= Z_of_byte b < 256.
Proof.
  unfold Z_of_byte. pose proof (Byte.to_N_bounded b). lia.
Qed.

Lemma Z_of_byte_of_Z (z : Z) : Z_of_byte (byte_of_Z z) = z mod 256.
Proof.
  unfold Z_of_byte, byte_of_Z, u8.
  assert (Hr : 0 <= z mod 2 ^ 8 < 256) by (apply Z.mod_pos_bound; lia).
  destruct (Byte.of_N (Z.to_N (z mod 2 ^ 8))) as [b|] eqn:E.
  - apply Byte.to_of_N in E. rewrite E. rewrite Z2N.id by lia.
    reflexivity.
  - apply Byte.of_N_None_iff in E. lia.
Qed.

Lemma byte_of_Z_of_byte (b : byte) : byte_of_Z (Z_of_byte b) = b.
Proof.
  unfold byte_of_Z, u8. pose proof (Z_of_byte_range b) as Hr.
  rewrite Z.mod_small by (change (2 ^ 8) with 256; lia).
  unfold Z_of_byte. rewrite N2Z.id, Byte.of_to_N. reflexivity.
Qed.

Lemma lor_shiftl_add (a b k : Z) :
  0 <= k -> 0 <= a < 2 ^ k -> Z.lor a (Z.shiftl b k) = a + b * 2 ^ k.
Proof.
  intros Hk Ha.
  rewrite <- Z.shiftl_mul_pow2 by lia.
  rewrite <- Z.add_lor_land.
  assert (Hl : Z.land a (Z.shiftl b k) = 0).
  { apply Z.bits_inj'. intros n Hn.
    rewrite Z.land_spec, Z.bits_0.
    destruct (Z.lt_ge_cases n k) as [Hlt|Hge].
    - rewrite Z.shiftl_spec_low by lia. apply andb_false_r.
    - rewrite <- (Z.mod_small a (2 ^ k)) by lia.
      rewrite Z.mod_pow2_bits_high by lia. reflexivity. }
  rewrite Hl. lia.
Qed.

Lemma Uint32_bytes (v : Z) (rest : list byte) :
  BigEndian.Uint32 (byte_of_Z (Z.shiftr v 24) :: byte_of_Z (Z.shiftr v 16)
                    :: byte_of_Z (Z.shiftr v 8) :: byte_of_Z v :: rest)
  = Some (u32 v).
Proof.
  unfold BigEndian.Uint32, u32. f_equal.
  rewrite !Z_of_byte_of_Z, !Z.shiftr_div_pow2 by lia.
  rewrite (lor_shiftl_add _ _ 8) by (try apply Z.mod_pos_bound; lia).
  rewrite (lor_shiftl_add _ _ 16) by
    (try lia; pose proof (Z.mod_pos_bound v 256); pose proof (Z.mod_pos_bound (v / 2 ^ 8) 256); lia).
  rewrite (lor_shiftl_add _ _ 24) by
    (try lia; pose proof (Z.mod_pos_bound v 256); pose proof (Z.mod_pos_bound (v / 2 ^ 8) 256);
     pose proof (Z.mod_pos_bound (v / 2 ^ 16) 256); lia).
  change (2 ^ 8) with 256. change (2 ^ 16) with 65536.
  change (2 ^ 24) with 16777216. change (2 ^ 32) with 4294967296.
  Z.to_euclidean_division_equations. lia.
Qed.

Lemma Uint64_bytes (v : Z) (rest : list byte) :
  BigEndian.Uint64 (BigEndian.PutUint64 v ++ rest) = Some (u64 v).
Proof.
  unfold BigEndian.Uint64, BigEndian.PutUint64, u64. cbn [app]. f_equal.
  rewrite !Z_of_byte_of_Z, !Z.shiftr_div_pow2 by lia.
  pose proof (Z.mod_pos_bound v 256).
  pose proof (Z.mod_pos_bound (v / 2 ^ 8) 256).
  pose proof (Z.mod_pos_bound (v / 2 ^ 16) 256).
  pose proof (Z.mod_pos_bound (v / 2 ^ 24) 256).
  pose proof (Z.mod_pos_bound (v / 2 ^ 32) 256).
  pose proof (Z.mod_pos_bound (v / 2 ^ 40) 256).
  pose proof (Z.mod_pos_bound (v / 2 ^ 48) 256).
  rewrite (lor_shiftl_add _ _ 8) by lia.
  rewrite (lor_shiftl_add _ _ 16) by lia.
  rewrite (lor_shiftl_add _ _ 24) by lia.
  rewrite (lor_shiftl_add _ _ 32) by lia.
  rewrite (lor_shiftl_add _ _ 40) by lia.
  rewrite (lor_shiftl_add _ _ 48) by lia.
  rewrite (lor_shiftl_add _ _ 56) by lia.
  change (2 ^ 8) with 256 in *. change (2 ^ 16) with 65536 in *.
  change (2 ^ 24) with 16777216 in *. change (2 ^ 32) with 4294967296 in *.
  change (2 ^ 40) with 1099511627776 in *. change (2 ^ 48) with 281474976710656 in *.
  change (2 ^ 56) with 72057594037927936 in *.
  change (2 ^ 64) with 18446744073709551616 in *.
  Z.to_euclidean_division_equations. lia.
Qed.

Lemma PutUint64_length (v : Z) : List.length (BigEndian.PutUint64 v) = 8%nat.
Proof. reflexivity. Qed.

Lemma readFullUint64_PutUint64 (v : Z) (rest : list byte) :
  readFullUint64 (BigEndian.PutUint64 v ++ rest) = (u64 v, None, rest).
Proof.
  unfold readFullUint64.
  change (BigEndian.PutUint64 v ++ rest) with
    (byte_of_Z (Z.shiftr v 56) :: byte_of_Z (Z.shiftr v 48) ::
     byte_of_Z (Z.shiftr v 40) :: byte_of_Z (Z.shiftr v 32) ::
     byte_of_Z (Z.shiftr v 24) :: byte_of_Z (Z.shiftr v 16) ::
     byte_of_Z (Z.shiftr v 8) :: byte_of_Z v :: rest).
  cbn [List.length Nat.ltb Nat.leb take drop].
  pose proof (Uint64_bytes v (take 0 rest)) as E.
  unfold BigEndian.PutUint64 in E. cbn [app] in E. rewrite E. reflexivity.
Qed.

Lemma readFullUint64_short (reader : list byte) :
  (List.length reader < 8)%nat ->
  exists e, readFullUint64 reader = (0, Some e, []).
Proof.
  intros Hl. unfold readFullUint64.
  destruct (Nat.ltb_spec (List.length reader) 8); [eauto | lia].
Qed.

(** ** The result entry codec *)

Lemma encodeResultEntryToBinary_cons (e : ResultEntry) :
  encodeResultEntryToBinary e =
  isEntry e
  :: byte_of_Z (Z.shiftr (length e) 24) :: byte_of_Z (Z.shiftr (length e) 16)
  :: byte_of_Z (Z.shiftr (length e) 8) :: byte_of_Z (length e)
  :: byte_of_Z (Z.shiftr (errorNum e) 24) :: byte_of_Z (Z.shiftr (errorNum e) 16)
  :: byte_of_Z (Z.shiftr (errorNum e) 8) :: byte_of_Z (errorNum e)
  :: errorStr e.
Proof. reflexivity. Qed.

Lemma encodeResultEntryToBinary_length (e : ResultEntry) :
  List.length (encodeResultEntryToBinary e) = (9 + List.length (errorStr e))%nat.
Proof. rewrite encodeResultEntryToBinary_cons. reflexivity. Qed.

(** The decoder undoes the encoder on every entry whose integer fields are
    32-bit values, whose [length] counts the nine fixed bytes and the error
    string, and whose error string is not empty. *)
Lemma decode_encode_nonempty (e : ResultEntry) :
  0 <= length e < 2 ^ 32 ->
  0 <= errorNum e < 2 ^ 32 ->
  length e = u32 (Z.of_nat (List.length (errorStr e)) + 1 + 4 + 4) ->
  errorStr e <> [] ->
  DecodeBinaryToResultEntry (encodeResultEntryToBinary e) = (e, None).
Proof.
  intros Hlen Hnum Hl Hne.
  unfold DecodeBinaryToResultEntry.
  rewrite encodeResultEntryToBinary_length.
  destruct e as [ie len num str]; cbn [isEntry length errorNum errorStr] in *.
  destruct str as [|c str]; [congruence|].
  destruct (Z.ltb_spec (Z.of_nat (9 + List.length (c :: str))) 10) as [Hlt|_];
    [cbn [List.length] in Hlt; lia|].
  rewrite encodeResultEntryToBinary_cons; cbn [isEntry length errorNum errorStr].
  cbn [slice slice_from Nat.sub take drop nth].
  rewrite !Uint32_bytes. cbn [default id].
  assert (Hlen' : u32 len = len) by (apply Z.mod_small; assumption).
  assert (Hnum' : u32 num = num) by (apply Z.mod_small; assumption).
  rewrite Hlen', Hnum'.
  assert (Heq : u32 (Z.of_nat (List.length (c :: str))) = u32 (len - 1 - 4 - 4)).
  { rewrite Hl. unfold u32.
    replace (Z.of_nat (List.length (c :: str)) + 1 + 4 + 4)
      with (Z.of_nat (List.length (c :: str)) + 9) by lia.
    replace ((Z.of_nat (List.length (c :: str)) + 9) mod 2 ^ 32 - 1 - 4 - 4)
      with ((Z.of_nat (List.length (c :: str)) + 9) mod 2 ^ 32 - 9) by lia.
    rewrite Zminus_mod_idemp_l. f_equal. lia. }
  rewrite Heq, Z.eqb_refl. reflexivity.
Qed.

(** ** The internal interface *)

Section ServerFacts.

Context {C : Type} `{NetConn C} {FileStream : Type}.
Implicit Types (s : ServerStream FileStream) (net : connRef -> C).

Lemma New_state (psf : string -> Z -> FileStream * option error) port file :
  let s := fst (New psf port file) in
  lastEntry s = 0 /\ tx s = {| tx_status := txNone; txAfterEntry := 0 |} /\
  clients s = ∅ /\ streamType s = StSequencer.
Proof. unfold New. destruct (psf file StSequencer). cbn. auto. Qed.

Lemma afterEntries_lastEntry s ds :
  0 <= lastEntry s < 2 ^ 64 ->
  lastEntry (afterEntries s ds) = u64 (lastEntry s + Z.of_nat (List.length ds)).
Proof.
  revert s. induction ds as [|d ds IH]; intros s Hs.
  - cbn. unfold u64. rewrite Z.add_0_r, Z.mod_small; lia.
  - cbn [afterEntries fold_left]. fold (afterEntries (fst (AddStreamEntry s (fst d) (snd d))) ds).
    rewrite IH.
    + cbn [AddStreamEntry fst set_lastEntry lastEntry List.length].
      unfold u64. rewrite Zplus_mod_idemp_l. f_equal. lia.
    + cbn. unfold u64. apply Z.mod_pos_bound. lia.
Qed.

(** ** Commands *)

Lemma clients_at_lookup s clientId c :
clients s !! clientId = Some c -> clients_at s clientId = c.
Proof. intros E. unfold clients_at. rewrite E. reflexivity. Qed.

Lemma sendResultEntry_conn s errorNum errorStr clientId h net :
conn (clients_at s clientId) = Some h ->
sendResultEntry s errorNum errorStr clientId net
= Ret (written h (resultPacket errorNum errorStr) net, None).
Proof. intros E. unfold sendResultEntry. rewrite E. reflexivity. Qed.

Lemma sendResultEntry_nil s errorNum errorStr clientId net :
conn (clients_at s clientId) = None ->
sendResultEntry s errorNum errorStr clientId net = Panic.
Proof. intros E. unfold sendResultEntry. rewrite E. reflexivity. Qed.

(** [processCommand] returns the server it was given and no error: the
    status it sets belongs to its local copy of the client record, and the
    error of the command is replaced by what [sendResultEntry] returns. *)
Lemma processCommand_state s command clientId net s' net' err :
processCommand s command clientId net = Ret (s', net', err) ->
s' = s /\ err = None.
Proof.
  unfold processCommand, sendResultEntry.
  destruct (conn (clients_at s clientId)) as [h|];
    repeat match goal with
    | |- context [if ?b then _ else _] => destruct b
    end; cbn; intros E; inversion E; auto.
Qed.

Lemma processCommand_answer s command clientId h st net :
clients s !! clientId = Some {| conn := Some h; status := st |} ->
processCommand s command clientId net
= Ret (s, written h (resultPacket 0 (answer command st)) net, None).
Proof.
  intros E. unfold processCommand, answer.
  rewrite (clients_at_lookup _ _ _ E). cbn [status].
  destruct (command =? CmdStart), (command =? CmdStop), (command =? CmdHeader),
    (st =? csStopped), (st =? csStarted); cbn [negb]; cbv zeta;
  (rewrite (sendResultEntry_conn _ _ _ _ h);
   [reflexivity | rewrite ?(clients_at_lookup _ _ _ E); reflexivity]).
Qed.

Lemma handleCommand_answer s command clientId h st net :
clients s !! clientId = Some {| conn := Some h; status := st |} ->
handleCommand s clientId command (streamType s) net
= Ret (s, written h (resultPacket 0 (answer command st)) net, Continue).
Proof.
  intros E. unfold handleCommand. rewrite Z.eqb_refl. cbn [negb].
  rewrite (processCommand_answer _ _ _ _ _ _ E). reflexivity.
Qed.

Lemma handleCommand_mismatch s command clientId st net :
st <> streamType s ->
handleCommand s clientId command st net = Ret (s, net, Return).
Proof.
  intros Hne. unfold handleCommand.
  destruct (Z.eqb_spec st (streamType s)); [contradiction | reflexivity].
Qed.

Lemma handleCommand_state s command clientId st net s' net' t :
handleCommand s clientId command st net = Ret (s', net', t) -> s' = s.
Proof.
  unfold handleCommand. destruct (negb (st =? streamType s)).
  - intros E. inversion E. reflexivity.
  - destruct (processCommand s command clientId net) as [[[s1 net1] err]| |] eqn:E;
      cbn; [|discriminate..].
    apply processCommand_state in E as [-> ->]. intros E. inversion E. reflexivity.
Qed.

(** ** The command loop *)

Lemma readFullUint64_ok reader v rest :
readFullUint64 reader = (v, None, rest) ->
(List.length rest + 8 = List.length reader)%nat.
Proof.
  unfold readFullUint64.
  destruct (Nat.ltb_spec (List.length reader) 8) as [Hlt|Hge]; [discriminate|].
  intros E. inversion E. rewrite length_drop. lia.
Qed.

(** Fuel above the number of bytes left does not matter. *)
Lemma serve_fuel fuel1 : forall fuel2 s clientId reader net,
(List.length reader < fuel1)%nat -> (List.length reader < fuel2)%nat ->
serve fuel1 s clientId reader net = serve fuel2 s clientId reader net.
Proof.
  induction fuel1 as [|fuel1 IH]; intros fuel2 s clientId reader net H1 H2; [lia|].
  destruct fuel2 as [|fuel2]; [lia|].
  cbn [serve].
  destruct (readFullUint64 reader) as [[command [e|]] r1] eqn:E1; [reflexivity|].
  destruct (readFullUint64 r1) as [[st [e|]] r2] eqn:E2; [reflexivity|].
  apply readFullUint64_ok in E1, E2.
  destruct (handleCommand s clientId command st net) as [[[s' net'] [|]]| |];
    cbn; try reflexivity.
  apply IH; lia.
Qed.

Lemma handleConnection_loop_unfold s clientId reader net :
handleConnection_loop s clientId reader net =
  let '(command, err, reader) := readFullUint64 reader in
  match err with
  | Some _ => Ret (s, net)
  | None =>
      let '(st, err, reader) := readFullUint64 reader in
      match err with
      | Some _ => Ret (s, net)
      | None =>
          '(s, net, t) ← handleCommand s clientId command st net;
          match t with
          | Return => Ret (s, net)
          | Continue => handleConnection_loop s clientId reader net
          end
      end
  end.
Proof.
  unfold handleConnection_loop at 1. cbn [serve].
  destruct (readFullUint64 reader) as [[command [e|]] r1] eqn:E1; [reflexivity|].
  destruct (readFullUint64 r1) as [[st [e|]] r2] eqn:E2; [reflexivity|].
  apply readFullUint64_ok in E1, E2.
  destruct (handleCommand s clientId command st net) as [[[s' net'] [|]]| |];
    cbn [mbind outcome_bind]; try reflexivity.
  unfold handleConnection_loop. apply serve_fuel; lia.
Qed.

(** One turn on a command as the client wrote it. *)
Lemma handleConnection_loop_command s clientId command st rest net :
handleConnection_loop s clientId
  (BigEndian.PutUint64 command ++ BigEndian.PutUint64 st ++ rest) net =
  '(s, net, t) ← handleCommand s clientId (u64 command) (u64 st) net;
  match t with
  | Return => Ret (s, net)
  | Continue => handleConnection_loop s clientId rest net
  end.
Proof.
  rewrite handleConnection_loop_unfold.
  rewrite readFullUint64_PutUint64, readFullUint64_PutUint64. reflexivity.
Qed.

(** The loop stops on input that ends before a whole command. *)
Lemma handleConnection_loop_short s clientId reader net :
(List.length reader < 16)%nat ->
handleConnection_loop s clientId reader net = Ret (s, net).
Proof.
  intros Hl. rewrite handleConnection_loop_unfold.
  destruct (readFullUint64 reader) as [[command [e|]] r1] eqn:E1; [reflexivity|].
  apply readFullUint64_ok in E1.
  destruct (readFullUint64_short r1) as [e E2]; [lia|].
  rewrite E2. reflexivity.
Qed.

(** The loop on the bytes of a list of commands does what [runCommands]
    does on the words read back, and goes on with the rest of the input
    when no turn ended it. *)
Lemma handleConnection_loop_commands cs : forall s clientId rest net,
handleConnection_loop s clientId (commandBytes cs ++ rest) net =
  '(s, net, t) ← runCommands s clientId (commandWords cs) net;
  match t with
  | Return => Ret (s, net)
  | Continue => handleConnection_loop s clientId rest net
  end.
Proof.
  induction cs as [|[command st] cs IH]; intros s clientId rest net.
  - reflexivity.
  - cbn [commandBytes flat_map fst snd commandWords map runCommands].
    fold (commandBytes cs). fold (commandWords cs).
    rewrite <- !app_assoc. rewrite handleConnection_loop_command.
    destruct (handleCommand s clientId (u64 command) (u64 st) net)
      as [[[s' net'] [|]]| |]; cbn [mbind outcome_bind]; try reflexivity.
    rewrite IH. reflexivity.
Qed.

(** ** Entry numbers *)

(** C1, as the code behaves. On a server fresh from [New], the call of
    [AddStreamEntry] that follows [n] earlier calls returns [n + 1] (modulo
    2^64) and no error: [lastEntry] is incremented before it is returned, so
    the numbers handed out are 1, 2, 3, ... and the first call, [n = 0],
    returns 1 where the claim says 0. *)
Theorem AddStreamEntry_number_after
  (psf : string -> Z -> FileStream * option error) port file ds etype data :
snd (AddStreamEntry (afterEntries (fst (New psf port file)) ds) etype data)
= (u64 (Z.of_nat (List.length ds) + 1), None).
Proof.
  destruct (New_state psf port file) as (Hl & _).
  cbn [AddStreamEntry snd set_lastEntry lastEntry].
  rewrite afterEntries_lastEntry by (rewrite Hl; lia).
  rewrite Hl. unfold u64. rewrite Zplus_mod_idemp_l. reflexivity.
Qed.

(** The first call on a fresh server returns 1. *)
Lemma AddStreamEntry_first
  (psf : string -> Z -> FileStream * option error) port file etype data :
snd (AddStreamEntry (fst (New psf port file)) etype data) = (1, None).
Proof.
  destruct (New_state psf port file) as (Hl & _).
  cbn [AddStreamEntry snd set_lastEntry lastEntry]. rewrite Hl. reflexivity.
Qed.

(** ** Transactions *)

Lemma StartStreamTx_state s :
StartStreamTx s
= (set_tx {| tx_status := txStarted; txAfterEntry := lastEntry s |} s, None).
Proof. reflexivity. Qed.

Lemma CommitStreamTx_state s :
CommitStreamTx s
= (set_tx {| tx_status := txNone; txAfterEntry := txAfterEntry (tx s) |} s, None).
Proof. reflexivity. Qed.

(** C5, amended. [StartStreamTx] has no precondition: in every state,
    also while a transaction is open, it returns no error, sets the
    transaction status to [txStarted] and replaces the snapshot
    [txAfterEntry] by the current [lastEntry]; every other field of the
    server (port, file name, stream type, client table, [lastEntry], stream
    file) is as before. The code does not tell a second begin from a commit
    followed by a begin: [StartStreamTx] after [CommitStreamTx] gives the
    same server and the same result. *)
Theorem StartStreamTx_always_restarts s :
let s' := fst (StartStreamTx s) in
snd (StartStreamTx s) = None /\
tx s' = {| tx_status := txStarted; txAfterEntry := lastEntry s |} /\
port s' = port s /\
fileName s' = fileName s /\
streamType s' = streamType s /\
clients s' = clients s /\
lastEntry s' = lastEntry s /\
fs s' = fs s /\
StartStreamTx (fst (CommitStreamTx s)) = StartStreamTx s.
Proof.
  rewrite StartStreamTx_state, CommitStreamTx_state.
  cbn [fst snd set_tx tx port fileName streamType clients lastEntry fs].
  repeat split.
Qed.

(** ** Answers to commands *)

Lemma resultPacket_decodes n text :
0 <= n < 2 ^ 32 -> text <> ""%string ->
DecodeBinaryToResultEntry (resultPacket n text)
= ({| isEntry := "255"%byte;
      length := u32 (Z.of_nat (List.length (bytes_of_string text)) + 1 + 4 + 4);
      errorNum := n;
      errorStr := bytes_of_string text |}, None).
Proof.
  intros Hn Ht. unfold resultPacket. apply decode_encode_nonempty; cbn.
  - apply Z.mod_pos_bound. lia.
  - assumption.
  - reflexivity.
  - destruct text; [congruence | discriminate].
Qed.

(** C3, as the code behaves. A [Stop] with the right stream type from a
    client whose stored status is stopped is answered with the result
    packet built from error number 0 and the text "client already stopped";
    the packet decodes to an entry whose [errorNum] is 0, not a nonzero
    number, and the loop goes on. *)
Theorem Stop_while_stopped_answer s clientId h net :
clients s !! clientId = Some {| conn := Some h; status := csStopped |} ->
handleCommand s clientId CmdStop (streamType s) net
= Ret (s, written h (resultPacket 0 "client already stopped") net, Continue) /\
exists r, DecodeBinaryToResultEntry (resultPacket 0 "client already stopped") = (r, None) /\
          errorNum r = 0 /\ errorStr r = bytes_of_string "client already stopped".
Proof.
  intros E. split.
  - rewrite (handleCommand_answer _ CmdStop _ _ _ _ E). reflexivity.
  - eexists. split; [apply resultPacket_decodes; [lia | discriminate]|].
    split; reflexivity.
Qed.

(** C4, amended. An unknown command id with the right stream type is
    answered with one result packet, whose text is "invalid command",
    written to the connection stored for the client. *)
Theorem unknown_command_answer s clientId h st command net :
clients s !! clientId = Some {| conn := Some h; status := st |} ->
command <> CmdStart -> command <> CmdStop -> command <> CmdHeader ->
exists n t,
  handleCommand s clientId command (streamType s) net
  = Ret (s, written h (resultPacket n "invalid command") net, t).
Proof.
  intros E H1 H2 H3. exists 0, Continue.
  rewrite (handleCommand_answer _ command _ _ _ _ E). unfold answer.
  destruct (Z.eqb_spec command CmdStart); [contradiction|].
  destruct (Z.eqb_spec command CmdStop); [contradiction|].
  destruct (Z.eqb_spec command CmdHeader); [contradiction|].
  reflexivity.
Qed.

(** ** Connections *)

Lemma handleConnection_commands s h cs rest net :
handleConnection s h (commandBytes cs ++ rest) net =
  let clientId := conn_RemoteAddr (net h) in
  let s := set_clients (<[clientId := {| conn := Some h; status := csStopped |}]> (clients s)) s in
  '(s, net, t) ← runCommands s clientId (commandWords cs) net;
  '(s, net) ← match t with
              | Return => Ret (s, net)
              | Continue => handleConnection_loop s clientId rest net
              end;
  Ret (s, <[h := conn_Close (net h)]> net).
Proof.
  unfold handleConnection. cbv zeta.
  rewrite handleConnection_loop_commands.
  destruct (runCommands _ _ _ _) as [[[s' net'] t]| |]; reflexivity.
Qed.

(** C7. Whatever commands [cs] the connection has served so far without
    the loop ending, a command whose stream type differs from the server's
    ends [handleConnection] with the server and the connections as they
    were after [cs], the connection closed: nothing is written for the
    command, the command is not processed and what the client sent after
    it is not read. *)
Theorem stream_type_mismatch_closes s h cs command st rest net s1 net1 :
let clientId := conn_RemoteAddr (net h) in
let s0 := set_clients (<[clientId := {| conn := Some h; status := csStopped |}]> (clients s)) s in
runCommands s0 clientId (commandWords cs) net = Ret (s1, net1, Continue) ->
u64 st <> streamType s1 ->
handleConnection s h
  (commandBytes cs ++ BigEndian.PutUint64 command ++ BigEndian.PutUint64 st ++ rest) net
= Ret (s1, <[h := conn_Close (net1 h)]> net1).
Proof.
  intros clientId s0 Hrun Hst.
  rewrite handleConnection_commands. cbv zeta. fold clientId. fold s0.
  rewrite Hrun. cbn [mbind outcome_bind].
  rewrite handleConnection_loop_command.
  rewrite handleCommand_mismatch by assumption. reflexivity.
Qed.

(** C6, as the code behaves. On a new connection, two [Start] commands in
    a row are both answered with the packet built from error number 0 and
    the text "OK", which decodes to an entry with [errorNum] 0: the second
    [Start] is accepted like the first, and the record stored for the client
    is still the stopped one [handleConnection] put there. *)
Theorem Start_twice_both_accepted s h net :
0 <= streamType s < 2 ^ 64 ->
let clientId := conn_RemoteAddr (net h) in
let s0 := set_clients (<[clientId := {| conn := Some h; status := csStopped |}]> (clients s)) s in
let net2 := written h (resultPacket 0 "OK") (written h (resultPacket 0 "OK") net) in
handleConnection s h
  (commandBytes [(CmdStart, streamType s); (CmdStart, streamType s)]) net
= Ret (s0, <[h := conn_Close (net2 h)]> net2) /\
exists r, DecodeBinaryToResultEntry (resultPacket 0 "OK") = (r, None) /\
          errorNum r = 0 /\ errorStr r = bytes_of_string "OK".
Proof.
  intros Hst clientId s0 net2. split.
  - rewrite <- (app_nil_r (commandBytes _)).
    rewrite handleConnection_commands. cbv zeta. fold clientId. fold s0.
    assert (E : clients s0 !! clientId = Some {| conn := Some h; status := csStopped |})
      by apply lookup_insert_eq.
    cbn [commandWords map fst snd runCommands].
    assert (Hu : u64 (streamType s) = streamType s0) by (apply Z.mod_small; exact Hst).
    rewrite Hu.
    change (u64 CmdStart) with CmdStart.
    rewrite (handleCommand_answer _ CmdStart _ _ _ _ E). cbn [mbind outcome_bind].
    rewrite (handleCommand_answer _ CmdStart _ _ _ _ E). cbn [mbind outcome_bind].
    rewrite handleConnection_loop_short by (cbn; lia).
    reflexivity.
  - eexists. split; [apply resultPacket_decodes; [lia | discriminate]|].
    split; reflexivity.
Qed.

(** ** The client table *)

Lemma step_all_stopped (w w' : ServerStream FileStream * (connRef -> C)) e :
all_stopped (fst w) -> step w e = Ret w' -> all_stopped (fst w').
Proof.
  destruct w as [s net]. intros Hinv. destruct e as [h|h command st| | |]; cbn [step].
  - intros E. inversion E. cbn. unfold all_stopped. cbn.
    apply map_Forall_insert_2; [reflexivity | exact Hinv].
  - destruct (handleCommand s (conn_RemoteAddr (net h)) command st net)
      as [[[s1 net1] t]| |] eqn:E; cbn [mbind outcome_bind]; [|discriminate..].
    apply handleCommand_state in E as ->.
    destruct t; intros E; inversion E; exact Hinv.
  - intros E. inversion E. exact Hinv.
  - intros E. inversion E. exact Hinv.
  - intros E. inversion E. exact Hinv.
Qed.

Lemma run_all_stopped es : forall (w w' : ServerStream FileStream * (connRef -> C)),
all_stopped (fst w) -> run w es = Ret w' -> all_stopped (fst w').
Proof.
  induction es as [|e es IH]; intros w w' Hinv; cbn [run].
  - intros E. inversion E. subst. exact Hinv.
  - destruct (step w e) as [w1| |] eqn:E; cbn [mbind outcome_bind]; [|discriminate..].
    apply IH. eapply step_all_stopped; eassumption.
Qed.

Lemma serve_state fuel : forall s clientId reader net s' net',
serve fuel s clientId reader net = Ret (s', net') -> s' = s.
Proof.
  induction fuel as [|fuel IH]; intros s clientId reader net s' net'; cbn [serve].
  - intros E. inversion E. reflexivity.
  - destruct (readFullUint64 reader) as [[command [e|]] r1];
      [intros E; inversion E; reflexivity|].
    destruct (readFullUint64 r1) as [[st [e|]] r2];
      [intros E; inversion E; reflexivity|].
    destruct (handleCommand s clientId command st net) as [[[s1 net1] t]| |] eqn:E;
      cbn [mbind outcome_bind]; [|discriminate..].
    apply handleCommand_state in E as ->.
    destruct t; [apply IH | intros E; inversion E; reflexivity].
Qed.

(** All [handleConnection] leaves in the server is the stopped record it
    stores for the connection before the first command. *)
Lemma handleConnection_state s h reader net s' net' :
handleConnection s h reader net = Ret (s', net') ->
s' = set_clients (<[conn_RemoteAddr (net h) := {| conn := Some h; status := csStopped |}]>
                    (clients s)) s.
Proof.
  unfold handleConnection, handleConnection_loop. cbv zeta.
  destruct (serve _ _ _ _ _) as [[s1 net1]| |] eqn:E; cbn [mbind outcome_bind];
    [|discriminate..].
  apply serve_state in E as ->. intros E. inversion E. reflexivity.
Qed.

(** C9. In every run of a server fresh from [New] (connections accepted,
    commands served in any interleaving, internal interface called), every
    record of the client table has status [csStopped], and a further
    command on any connection leaves the table as it is: [processCommand]
    changes the status of its local copy only. *)
Theorem clients_stay_stopped
  (psf : string -> Z -> FileStream * option error) port file net es s' net' :
run (fst (New psf port file), net) es = Ret (s', net') ->
(forall clientId c, clients s' !! clientId = Some c -> status c = csStopped) /\
(forall h command st s'' net'',
   step (s', net') (Command h command st) = Ret (s'', net'') ->
   clients s'' = clients s').
Proof.
  intros Hrun. split.
  - intros clientId c Hc.
    assert (Hinv : all_stopped s').
    { change s' with (fst (s', net')). eapply run_all_stopped; [|exact Hrun].
      cbn [fst]. destruct (New_state psf port file) as (_ & _ & Hcl & _).
      unfold all_stopped. rewrite Hcl. apply map_Forall_empty. }
    exact (Hinv clientId c Hc).
  - intros h command st s'' net''. cbn [step].
    destruct (handleCommand s' (conn_RemoteAddr (net' h)) command st net')
      as [[[s1 net1] t]| |] eqn:E; cbn [mbind outcome_bind]; [|discriminate..].
    apply handleCommand_state in E as ->.
    destruct t; intros E; inversion E; reflexivity.
Qed.

End ServerFacts.

(** ** The client *)

Section ClientFacts.

Context {C : Type} `{NetConn C} {HeaderEntry : Type}.
Implicit Types (c : Client.StreamClient HeaderEntry) (net : connRef -> C).

(** On a [nil] connection [writeFullUint64] reaches the [log.Errorf] of its
    error branch and panics in [conn.RemoteAddr()]. *)
Lemma writeFullUint64_nil value net : Client.writeFullUint64 value None net = Panic.
Proof. reflexivity. Qed.

Lemma sendCommand_nil c cmd net :
Client.conn c = None -> Client.sendCommand c cmd net = Panic.
Proof. intros E. unfold Client.sendCommand. rewrite E. reflexivity. Qed.

(** C10. Before [Start] the connection is [nil]: [ExecCommand] with a
    valid command panics, and with no command at all does it return the
    error "error nil connection" that [writeFullUint64] prepares. *)
Theorem ExecCommand_nil_connection c cmd net :
Client.conn c = None ->
(CmdStart <= cmd <= CmdHeader -> Client.ExecCommand c cmd net = Panic) /\
(forall c' net', Client.ExecCommand c cmd net <> Ret (c', net', Some "error nil connection"%string)).
Proof.
  intros E. unfold Client.ExecCommand. rewrite (sendCommand_nil _ _ _ E).
  destruct (Z.ltb_spec cmd CmdStart) as [Hlt|Hge]; cbn [orb mbind outcome_bind].
  - split; [lia | discriminate].
  - destruct (Z.gtb_spec cmd CmdHeader) as [Hgt|Hle]; cbn [mbind outcome_bind].
    + split; [lia | discriminate].
    + split; [reflexivity | discriminate].
Qed.

(** C8, amended. Once the command has been written without error, a
    queued result whose [errorNum] is not zero makes [ExecCommand] return
    the error "result command error", whatever the error string of the
    result is; the result is taken off the queue and nothing else of the
    client changes. *)
Theorem ExecCommand_result_error c cmd net net' r q :
CmdStart <= cmd <= CmdHeader ->
Client.sendCommand c cmd net = Ret (net', None) ->
Client.results c = r :: q ->
errorNum r <> 0 ->
Client.ExecCommand c cmd net
= Ret (Client.set_results q c, net', Some "result command error"%string).
Proof.
  intros [H1 H2] Hsend Hq Hr. unfold Client.ExecCommand.
  destruct (Z.ltb_spec cmd CmdStart); [lia|].
  destruct (Z.gtb_spec cmd CmdHeader); [lia|]. cbn [orb].
  rewrite Hsend. cbn [mbind outcome_bind].
  unfold Client.getResult. rewrite Hq. cbn [mbind outcome_bind].
  change (u32 Client.CmdErrOK) with 0.
  destruct (Z.eqb_spec (errorNum r) 0); [contradiction | reflexivity].
Qed.

End ClientFacts.

(** ** The codec on the empty error string *)

Lemma decode_encode_empty (e : ResultEntry) :
errorStr e = [] ->
DecodeBinaryToResultEntry (encodeResultEntryToBinary e)
= (ResultEntry_zero, Some "invalid binary result entry"%string).
Proof.
  intros He. unfold DecodeBinaryToResultEntry.
  rewrite encodeResultEntryToBinary_length, He. reflexivity.
Qed.

(** C2, as the code behaves. Let [r] be an entry as the encoder is given
    it: [isEntry] 0xff, [errorNum] a 32-bit value, [length] nine plus the
    length of the error string (as a 32-bit value). Decoding the encoding of
    [r] returns [r] and no error when the error string is not empty. When it
    is empty, the encoding has exactly nine bytes and the decoder, which
    wants ten bytes at least, rejects it with "invalid binary result entry"
    and returns the zero entry. *)
Theorem decode_encode_result (r : ResultEntry) :
isEntry r = "255"%byte ->
0 <= errorNum r < 2 ^ 32 ->
length r = u32 (Z.of_nat (List.length (errorStr r)) + 1 + 4 + 4) ->
match errorStr r with
| [] =>
    List.length (encodeResultEntryToBinary r) = 9%nat /\
    DecodeBinaryToResultEntry (encodeResultEntryToBinary r)
    = (ResultEntry_zero, Some "invalid binary result entry"%string)
| _ :: _ =>
    DecodeBinaryToResultEntry (encodeResultEntryToBinary r) = (r, None)
end.
Proof.
  intros _ Hnum Hlen.
  destruct (errorStr r) as [|c str] eqn:He.
  - split.
    + rewrite encodeResultEntryToBinary_length, He. reflexivity.
    + apply decode_encode_empty. exact He.
  - apply decode_encode_nonempty.
    + rewrite Hlen. apply Z.mod_pos_bound. lia.
    + exact Hnum.
    + rewrite He. exact Hlen.
    + rewrite He. discriminate.
Qed.

(** The empty error string: nine bytes, which the decoder rejects. *)
Lemma decode_encode_result_witness :
let r := {| isEntry := "255"%byte; length := 9; errorNum := 0; errorStr := [] |} in
encodeResultEntryToBinary r
= ["255"; "000"; "000"; "000"; "009"; "000"; "000"; "000"; "000"]%byte /\
List.length (encodeResultEntryToBinary r) = 9%nat /\
DecodeBinaryToResultEntry (encodeResultEntryToBinary r)
= (ResultEntry_zero, Some "invalid binary result entry"%string).
Proof.
  intros r. split; [reflexivity|].
  assert (Hnum : 0 <= errorNum r < 2 ^ 32) by (cbn; lia).
  exact (decode_encode_result r eq_refl Hnum eq_refl).
Defined.

(** ** Runs of the model on the concrete server *)

(** [Stop] as the first command of connection 0. *)
Lemma Stop_while_stopped_answer_witness :
clients demoAccepted !! demoAddr = Some {| conn := Some O; status := csStopped |} /\
handleCommand demoAccepted demoAddr CmdStop (streamType demoAccepted) demoNet
= Ret (demoAccepted, written O (resultPacket 0 "client already stopped") demoNet, Continue) /\
exists r, DecodeBinaryToResultEntry (resultPacket 0 "client already stopped") = (r, None) /\
          errorNum r = 0 /\ errorStr r = bytes_of_string "client already stopped".
Proof.
  split; [vm_compute; reflexivity|].
  apply (Stop_while_stopped_answer demoAccepted demoAddr O demoNet).
  vm_compute; reflexivity.
Defined.

(** C4, counterexample. The unknown command 9, sent with the server's
    stream type on an accepted connection, is answered: the result packet
    with the text "invalid command" is written to the connection, and the
    turn does not end the loop. *)
Lemma unknown_command_counterexample :
handleCommand demoAccepted demoAddr 9 (streamType demoAccepted) demoNet
= Ret (demoAccepted, written O (resultPacket 0 "invalid command") demoNet, Continue) /\
wire_sent (written O (resultPacket 0 "invalid command") demoNet O)
= resultPacket 0 "invalid command" /\
wire_sent (written O (resultPacket 0 "invalid command") demoNet O) <> wire_sent (demoNet O).
Proof.
  split; [vm_compute; reflexivity|]. split; [vm_compute; reflexivity|].
  vm_compute. discriminate.
Qed.

(** The unknown command 9 on connection 0. *)
Lemma unknown_command_answer_witness :
clients demoAccepted !! demoAddr = Some {| conn := Some O; status := csStopped |} /\
exists n t,
  handleCommand demoAccepted demoAddr 9 (streamType demoAccepted) demoNet
  = Ret (demoAccepted, written O (resultPacket n "invalid command") demoNet, t).
Proof.
  split; [vm_compute; reflexivity|].
  apply (unknown_command_answer demoAccepted demoAddr O csStopped 9 demoNet).
  - vm_compute; reflexivity.
  - unfold CmdStart; lia.
  - unfold CmdStop; lia.
  - unfold CmdHeader; lia.
Defined.

(** C5, counterexample. After [StartStreamTx] and one [AddStreamEntry] a
    transaction is open with snapshot 0; a second [StartStreamTx] returns no
    error and moves the snapshot to 1. *)
Lemma StartStreamTx_open_counterexample :
let s1 := fst (AddStreamEntry (fst (StartStreamTx demoServer)) 1 []) in
tx_status (tx s1) = txStarted /\ txAfterEntry (tx s1) = 0 /\
snd (StartStreamTx s1) = None /\
txAfterEntry (tx (fst (StartStreamTx s1))) = 1.
Proof. vm_compute. auto. Qed.

(** Two [Start] commands on connection 0 of the fresh server. *)
Lemma Start_twice_both_accepted_witness :
0 <= streamType demoServer < 2 ^ 64 /\
let net2 := written O (resultPacket 0 "OK") (written O (resultPacket 0 "OK") demoNet) in
handleConnection demoServer O
  (commandBytes [(CmdStart, streamType demoServer); (CmdStart, streamType demoServer)]) demoNet
= Ret (demoAccepted, <[O := conn_Close (net2 O)]> net2) /\
exists r, DecodeBinaryToResultEntry (resultPacket 0 "OK") = (r, None) /\
          errorNum r = 0 /\ errorStr r = bytes_of_string "OK".
Proof.
  split; [change (streamType demoServer) with 1; lia|].
  assert (Hst : 0 <= streamType demoServer < 2 ^ 64)
    by (change (streamType demoServer) with 1; lia).
  exact (Start_twice_both_accepted demoServer O demoNet Hst).
Defined.

(** [Header] with stream type 1, then [Start] with stream type 2, then a
    [Stop] that is never read. *)
Lemma stream_type_mismatch_closes_witness :
let net1 := written O (resultPacket 0 "OK") demoNet in
runCommands demoAccepted demoAddr (commandWords [(CmdHeader, 1)]) demoNet
= Ret (demoAccepted, net1, Continue) /\
u64 2 <> streamType demoAccepted /\
handleConnection demoServer O
  (commandBytes [(CmdHeader, 1)] ++ BigEndian.PutUint64 CmdStart ++ BigEndian.PutUint64 2
   ++ BigEndian.PutUint64 CmdStop ++ BigEndian.PutUint64 1) demoNet
= Ret (demoAccepted, <[O := conn_Close (net1 O)]> net1).
Proof.
  assert (Hrun : runCommands demoAccepted demoAddr (commandWords [(CmdHeader, 1)]) demoNet
                 = Ret (demoAccepted, written O (resultPacket 0 "OK") demoNet, Continue))
    by (vm_compute; reflexivity).
  assert (Hst : u64 2 <> streamType demoAccepted) by (vm_compute; discriminate).
  split; [exact Hrun|]. split; [exact Hst|].
  exact (stream_type_mismatch_closes demoServer O [(CmdHeader, 1)] CmdStart 2
           (BigEndian.PutUint64 CmdStop ++ BigEndian.PutUint64 1) demoNet
           demoAccepted (written O (resultPacket 0 "OK") demoNet) Hrun Hst).
Defined.

(** A run with commands and transactions interleaved; the record of
    connection 0 is there and stopped at the end. *)
Lemma clients_stay_stopped_witness :
let es := [Accept O; Command O CmdStart 1; StartTx; AddEntry 1 []; Command O CmdStart 1;
           CommitTx; Command O CmdStop 1] in
exists s' net',
  run (demoServer, demoNet) es = Ret (s', net') /\
  clients s' !! demoAddr = Some {| conn := Some O; status := csStopped |} /\
  (forall clientId c, clients s' !! clientId = Some c -> status c = csStopped) /\
  (forall h command st s'' net'',
     step (s', net') (Command h command st) = Ret (s'', net'') ->
     clients s'' = clients s').
Proof.
  intros es.
  destruct (run (demoServer, demoNet) es) as [[s' net']| |] eqn:E;
    [|vm_compute in E; discriminate..].
  exists s', net'. split; [reflexivity|]. split.
  - assert (Hc : clients s' = clients demoAccepted)
      by (vm_compute in E; inversion E; reflexivity).
    rewrite Hc. vm_compute; reflexivity.
  - exact (clients_stay_stopped demoPrepare 6900 "datastream.bin" demoNet es s' net' E).
Defined.

(** ** Runs of the model on the concrete client *)

(** C8, counterexample. The server's result carries error number 1 and the
    text "client already stopped"; the error [ExecCommand] returns for it
    is "result command error", in which that text does not occur. *)
Lemma ExecCommand_error_text_counterexample :
errorNum demoFailure <> 0 /\
errorStr demoFailure = bytes_of_string "client already stopped" /\
Client.ExecCommand demoClient CmdStop demoNet
= Ret (Client.set_results [] demoClient,
       written O (BigEndian.PutUint64 StSequencer) (written O (BigEndian.PutUint64 CmdStop) demoNet),
       Some "result command error"%string) /\
String.index 0 "client already stopped" "result command error" = None.
Proof.
  split; [vm_compute; discriminate|].
  split; [reflexivity|]. split; vm_compute; reflexivity.
Qed.

(** [Stop] on the dialled client with the failure result queued. *)
Lemma ExecCommand_result_error_witness :
CmdStart <= CmdStop <= CmdHeader /\
Client.results demoClient = [demoFailure] /\
errorNum demoFailure <> 0 /\
Client.ExecCommand demoClient CmdStop demoNet
= Ret (Client.set_results [] demoClient,
       written O (BigEndian.PutUint64 StSequencer) (written O (BigEndian.PutUint64 CmdStop) demoNet),
       Some "result command error"%string).
Proof.
  assert (Hcmd : CmdStart <= CmdStop <= CmdHeader) by (unfold CmdStart, CmdStop, CmdHeader; lia).
  assert (Hnum : errorNum demoFailure <> 0) by (vm_compute; discriminate).
  split; [exact Hcmd|]. split; [reflexivity|]. split; [exact Hnum|].
  exact (ExecCommand_result_error demoClient CmdStop demoNet
           (written O (BigEndian.PutUint64 StSequencer)
              (written O (BigEndian.PutUint64 CmdStop) demoNet))
           demoFailure [] Hcmd eq_refl eq_refl Hnum).
Defined.

(** [Start] on a client fresh from [NewClient]. *)
Lemma ExecCommand_nil_connection_witness :
Client.conn demoNewClient = None /\
Client.ExecCommand demoNewClient CmdStart demoNet = Panic /\
(forall c' net',
   Client.ExecCommand demoNewClient CmdStart demoNet
   <> Ret (c', net', Some "error nil connection"%string)).
Proof.
  assert (Hcmd : CmdStart <= CmdStart <= CmdHeader) by (unfold CmdStart, CmdHeader; lia).
  split; [reflexivity|].
  destruct (ExecCommand_nil_connection demoNewClient CmdStart demoNet eq_refl) as [Hp Hn].
  split; [exact (Hp Hcmd) | exact Hn].
Defined.

(** * Further properties *)

(** ** Words read back as bytes *)

Lemma byte_of_Z_mod (z : Z) (b : byte) : z mod 256 = Z_of_byte b -> byte_of_Z z = b.
Proof.
  intros E. rewrite <- (byte_of_Z_of_byte b), <- E.
  unfold byte_of_Z, u8. change (2 ^ 8) with 256. rewrite Z.mod_mod by lia. reflexivity.
Qed.

Lemma Uint32_value (b0 b1 b2 b3 : byte) (rest : list byte) :
BigEndian.Uint32 (b0 :: b1 :: b2 :: b3 :: rest)
= Some (Z_of_byte b3 + Z_of_byte b2 * 2 ^ 8 + Z_of_byte b1 * 2 ^ 16 + Z_of_byte b0 * 2 ^ 24).
Proof.
  pose proof (Z_of_byte_range b0). pose proof (Z_of_byte_range b1).
  pose proof (Z_of_byte_range b2). pose proof (Z_of_byte_range b3).
  unfold BigEndian.Uint32. f_equal.
  rewrite (lor_shiftl_add _ _ 8) by lia.
  rewrite (lor_shiftl_add _ _ 16) by lia.
  rewrite (lor_shiftl_add _ _ 24) by lia.
  reflexivity.
Qed.

Lemma Uint32_range (b : list byte) (v : Z) :
BigEndian.Uint32 b = Some v -> 0 <= v < 2 ^ 32.
Proof.
  destruct b as [|b0 [|b1 [|b2 [|b3 rest]]]]; try discriminate.
  rewrite Uint32_value. intros E. inversion E.
  pose proof (Z_of_byte_range b0). pose proof (Z_of_byte_range b1).
  pose proof (Z_of_byte_range b2). pose proof (Z_of_byte_range b3). lia.
Qed.

(** Writing a 32-bit word that was read gives the four bytes it was read
    from. *)
Lemma AppendUint32_Uint32 (b0 b1 b2 b3 : byte) (rest pre : list byte) (v : Z) :
BigEndian.Uint32 (b0 :: b1 :: b2 :: b3 :: rest) = Some v ->
BigEndian.AppendUint32 pre v = pre ++ [b0; b1; b2; b3].
Proof.
  rewrite Uint32_value. intros E. inversion E as [Ev]. clear E.
  pose proof (Z_of_byte_range b0). pose proof (Z_of_byte_range b1).
  pose proof (Z_of_byte_range b2). pose proof (Z_of_byte_range b3).
  unfold BigEndian.AppendUint32. rewrite !Z.shiftr_div_pow2 by lia.
  f_equal.
  rewrite (byte_of_Z_mod _ b0), (byte_of_Z_mod _ b1), (byte_of_Z_mod _ b2),
    (byte_of_Z_mod _ b3); [reflexivity|..];
  change (2 ^ 8) with 256 in *; change (2 ^ 16) with 65536 in *;
  change (2 ^ 24) with 16777216 in *;
  Z.to_euclidean_division_equations; lia.
Qed.

Lemma Uint64_value (b0 b1 b2 b3 b4 b5 b6 b7 : byte) (rest : list byte) :
BigEndian.Uint64 (b0 :: b1 :: b2 :: b3 :: b4 :: b5 :: b6 :: b7 :: rest)
= Some (Z_of_byte b7 + Z_of_byte b6 * 2 ^ 8 + Z_of_byte b5 * 2 ^ 16
        + Z_of_byte b4 * 2 ^ 24 + Z_of_byte b3 * 2 ^ 32 + Z_of_byte b2 * 2 ^ 40
        + Z_of_byte b1 * 2 ^ 48 + Z_of_byte b0 * 2 ^ 56).
Proof.
  pose proof (Z_of_byte_range b0). pose proof (Z_of_byte_range b1).
  pose proof (Z_of_byte_range b2). pose proof (Z_of_byte_range b3).
  pose proof (Z_of_byte_range b4). pose proof (Z_of_byte_range b5).
  pose proof (Z_of_byte_range b6). pose proof (Z_of_byte_range b7).
  unfold BigEndian.Uint64. f_equal.
  rewrite (lor_shiftl_add _ _ 8) by lia.
  rewrite (lor_shiftl_add _ _ 16) by lia.
  rewrite (lor_shiftl_add _ _ 24) by lia.
  rewrite (lor_shiftl_add _ _ 32) by lia.
  rewrite (lor_shiftl_add _ _ 40) by lia.
  rewrite (lor_shiftl_add _ _ 48) by lia.
  rewrite (lor_shiftl_add _ _ 56) by lia.
  reflexivity.
Qed.

Lemma PutUint64_Uint64 (b0 b1 b2 b3 b4 b5 b6 b7 : byte) (rest : list byte) (v : Z) :
BigEndian.Uint64 (b0 :: b1 :: b2 :: b3 :: b4 :: b5 :: b6 :: b7 :: rest) = Some v ->
0 <= v < 2 ^ 64 /\ BigEndian.PutUint64 v = [b0; b1; b2; b3; b4; b5; b6; b7].
Proof.
  rewrite Uint64_value. intros E. inversion E as [Ev]. clear E.
  pose proof (Z_of_byte_range b0). pose proof (Z_of_byte_range b1).
  pose proof (Z_of_byte_range b2). pose proof (Z_of_byte_range b3).
  pose proof (Z_of_byte_range b4). pose proof (Z_of_byte_range b5).
  pose proof (Z_of_byte_range b6). pose proof (Z_of_byte_range b7).
  split; [lia|].
  unfold BigEndian.PutUint64. rewrite !Z.shiftr_div_pow2 by lia.
  rewrite (byte_of_Z_mod _ b0), (byte_of_Z_mod _ b1), (byte_of_Z_mod _ b2),
    (byte_of_Z_mod _ b3), (byte_of_Z_mod _ b4), (byte_of_Z_mod _ b5),
    (byte_of_Z_mod _ b6), (byte_of_Z_mod _ b7); [reflexivity|..];
  change (2 ^ 8) with 256 in *; change (2 ^ 16) with 65536 in *;
  change (2 ^ 24) with 16777216 in *; change (2 ^ 32) with 4294967296 in *;
  change (2 ^ 40) with 1099511627776 in *; change (2 ^ 48) with 281474976710656 in *;
  change (2 ^ 56) with 72057594037927936 in *;
  Z.to_euclidean_division_equations; lia.
Qed.

(** ** The decoder on arbitrary bytes *)

(** What the decoder does on input of ten bytes or more. *)
Lemma DecodeBinaryToResultEntry_long (b0 l0 l1 l2 l3 n0 n1 n2 n3 c : byte) (str : list byte) :
let b := b0 :: l0 :: l1 :: l2 :: l3 :: n0 :: n1 :: n2 :: n3 :: c :: str in
let e := {| isEntry := b0;
            length := default 0 (BigEndian.Uint32 [l0; l1; l2; l3]);
            errorNum := default 0 (BigEndian.Uint32 [n0; n1; n2; n3]);
            errorStr := c :: str |} in
DecodeBinaryToResultEntry b =
  if u32 (Z.of_nat (List.length (c :: str))) =? u32 (length e - 1 - 4 - 4)
  then (e, None) else (e, Some "error decoding binary result entry"%string).
Proof.
  intros b e. unfold DecodeBinaryToResultEntry.
  destruct (Z.ltb_spec (Z.of_nat (List.length b)) 10) as [Hlt|_];
    [cbn [List.length b] in Hlt; lia|].
  cbn [b slice slice_from Nat.sub take drop nth errorStr length].
  fold e. cbn [length e].
  destruct (u32 (Z.of_nat (List.length (c :: str))) =? _); reflexivity.
Qed.

Lemma list_ten {A} (b : list A) :
(10 <= List.length b)%nat ->
exists b0 l0 l1 l2 l3 n0 n1 n2 n3 c str,
  b = b0 :: l0 :: l1 :: l2 :: l3 :: n0 :: n1 :: n2 :: n3 :: c :: str.
Proof.
  intros Hl.
  do 10 (destruct b as [|? b]; [cbn in Hl; lia|]).
  repeat eexists.
Qed.

(** X1. Whatever bytes the decoder accepts, encoding the entry it returns
    gives those bytes back: nothing of an accepted packet is lost or
    changed by decoding. *)
Theorem encode_decode_accepted (b : list byte) (e : ResultEntry) :
DecodeBinaryToResultEntry b = (e, None) ->
encodeResultEntryToBinary e = b.
Proof.
  intros Hd.
  assert (Hl : (10 <= List.length b)%nat).
  { unfold DecodeBinaryToResultEntry in Hd.
    destruct (Z.ltb_spec (Z.of_nat (List.length b)) 10); [discriminate | lia]. }
  destruct (list_ten b Hl) as (b0 & l0 & l1 & l2 & l3 & n0 & n1 & n2 & n3 & c & str & ->).
  rewrite DecodeBinaryToResultEntry_long in Hd. cbv zeta in Hd.
  destruct (BigEndian.Uint32 [l0; l1; l2; l3]) as [L|] eqn:EL; [|discriminate].
  destruct (BigEndian.Uint32 [n0; n1; n2; n3]) as [N|] eqn:EN; [|discriminate].
  cbn [default] in Hd.
  destruct (_ =? _) in Hd; [|discriminate].
  injection Hd as <-.
  rewrite encodeResultEntryToBinary_cons. cbn [isEntry length errorNum errorStr].
  pose proof (AppendUint32_Uint32 _ _ _ _ _ [] _ EL) as HL.
  pose proof (AppendUint32_Uint32 _ _ _ _ _ [] _ EN) as HN.
  unfold BigEndian.AppendUint32 in HL, HN. cbn [app] in HL, HN.
  inversion HL as [[H0 H1 H2 H3]]. inversion HN as [[H4 H5 H6 H7]].
  rewrite H0, H1, H2, H3, H4, H5, H6, H7. reflexivity.
Qed.

(** X2. The decoder accepts exactly the inputs of at least ten bytes
    whose length field (bytes 1 to 4, big endian) is the number of bytes of
    the input, modulo 2^32. Everything else is rejected. *)
Theorem DecodeBinaryToResultEntry_accepts (b : list byte) :
snd (DecodeBinaryToResultEntry b) = None <->
(10 <= List.length b)%nat /\
BigEndian.Uint32 (slice b 1 5) = Some (u32 (Z.of_nat (List.length b))).
Proof.
  split.
  - intros Hd.
    assert (Hl : (10 <= List.length b)%nat).
    { unfold DecodeBinaryToResultEntry in Hd.
      destruct (Z.ltb_spec (Z.of_nat (List.length b)) 10); [discriminate | lia]. }
    split; [exact Hl|].
    destruct (list_ten b Hl) as (b0 & l0 & l1 & l2 & l3 & n0 & n1 & n2 & n3 & c & str & ->).
    rewrite DecodeBinaryToResultEntry_long in Hd. cbv zeta in Hd.
    cbn [slice Nat.sub take drop length errorStr] in *.
    pose proof (Uint32_value l0 l1 l2 l3 []) as EL.
    remember (Z_of_byte l3 + Z_of_byte l2 * 2 ^ 8 + Z_of_byte l1 * 2 ^ 16
              + Z_of_byte l0 * 2 ^ 24) as L eqn:HL. clear HL.
    rewrite EL in Hd |- *.
    pose proof (Uint32_range _ _ EL) as HLr. cbn [default] in Hd.
    unfold id in Hd.
    destruct (Z.eqb_spec (u32 (Z.of_nat (List.length (c :: str)))) (u32 (L - 1 - 4 - 4)))
      as [Heq|Hne]; [|cbn [snd] in Hd; discriminate].
    f_equal. cbn [List.length] in *. unfold u32 in *.
    change (2 ^ 32) with 4294967296 in *.
    Z.to_euclidean_division_equations; lia.
  - intros [Hl Hf].
    destruct (list_ten b Hl) as (b0 & l0 & l1 & l2 & l3 & n0 & n1 & n2 & n3 & c & str & ->).
    rewrite DecodeBinaryToResultEntry_long. cbv zeta.
    cbn [slice Nat.sub take drop length errorStr] in *.
    rewrite Hf. cbn [default]. unfold id.
    destruct (Z.eqb_spec (u32 (Z.of_nat (List.length (c :: str))))
                (u32 (u32 (Z.of_nat (List.length
                   (b0 :: l0 :: l1 :: l2 :: l3 :: n0 :: n1 :: n2 :: n3 :: c :: str))) - 1 - 4 - 4)))
      as [Heq|Hne]; [reflexivity|].
    exfalso. apply Hne. cbn [List.length]. unfold u32.
    change (2 ^ 32) with 4294967296.
    Z.to_euclidean_division_equations; lia.
Qed.

(** X3. What [readFullUint64] returns describes what it read: on success
    the value is below 2^64 and the input is the value's eight big-endian
    bytes followed by what is left to read; it fails exactly when fewer
    than eight bytes are left, with value 0, and leaves nothing to read. *)
Theorem readFullUint64_reads (reader : list byte) :
match readFullUint64 reader with
| (v, None, rest) =>
    0 <= v < 2 ^ 64 /\ reader = BigEndian.PutUint64 v ++ rest
| (v, Some e, rest) =>
    (List.length reader < 8)%nat /\ v = 0 /\ rest = [] /\
    e = match reader with [] => "EOF" | _ => "unexpected EOF" end%string
end.
Proof.
  unfold readFullUint64.
  destruct (Nat.ltb_spec (List.length reader) 8) as [Hlt|Hge]; [auto|].
  do 8 (destruct reader as [|? reader]; [cbn in Hge; lia|]).
  cbn [take drop].
  destruct (BigEndian.Uint64 _) as [v|] eqn:E; [|discriminate].
  cbn [default]. unfold id.
  destruct (PutUint64_Uint64 _ _ _ _ _ _ _ _ _ _ E) as [Hr Hp].
  split; [exact Hr|]. rewrite Hp. reflexivity.
Qed.

Section ServerMore.

Context {C : Type} `{NetConn C} {FileStream : Type}.
Implicit Types (s : ServerStream FileStream) (net : connRef -> C).

(** ** Numbers and transactions *)

(** X4. The numbers [AddStreamEntry] returns do not repeat: two calls
    with fewer than 2^64 calls from the first to the second return
    different numbers, in whatever state the server started. *)
Theorem AddStreamEntry_numbers_differ s ds ds' etype data etype' data' :
0 <= lastEntry s < 2 ^ 64 ->
Z.of_nat (List.length ds') + 1 < 2 ^ 64 ->
fst (snd (AddStreamEntry (afterEntries s ds) etype data))
<> fst (snd (AddStreamEntry
               (afterEntries (fst (AddStreamEntry (afterEntries s ds) etype data)) ds')
               etype' data')).
Proof.
  intros Hs Hk.
  cbn [AddStreamEntry fst snd set_lastEntry lastEntry].
  assert (Hr : 0 <= u64 (lastEntry (afterEntries s ds) + 1) < 2 ^ 64)
    by (apply Z.mod_pos_bound; lia).
  rewrite (afterEntries_lastEntry (set_lastEntry _ _)) by exact Hr.
  cbn [set_lastEntry lastEntry].
  remember (lastEntry (afterEntries s ds)) as a eqn:Ha. clear Ha.
  unfold u64 in *. change (2 ^ 64) with 18446744073709551616 in *.
  Z.to_euclidean_division_equations; lia.
Qed.

(** X5. A transaction bracket around any number of appended entries:
    after [StartStreamTx], the calls of [AddStreamEntry] and
    [CommitStreamTx], the status is [txNone] again, the snapshot
    [txAfterEntry] still holds the [lastEntry] from before the bracket,
    [lastEntry] has advanced by the number of entries (modulo 2^64), and the
    client table is untouched. *)
Theorem transaction_bracket s ds :
0 <= lastEntry s < 2 ^ 64 ->
let s3 := fst (CommitStreamTx (afterEntries (fst (StartStreamTx s)) ds)) in
tx s3 = {| tx_status := txNone; txAfterEntry := lastEntry s |} /\
lastEntry s3 = u64 (lastEntry s + Z.of_nat (List.length ds)) /\
clients s3 = clients s.
Proof.
  intros Hs.
  assert (Hinv : forall ds s1,
            tx (afterEntries s1 ds) = tx s1 /\ clients (afterEntries s1 ds) = clients s1).
  { induction ds0 as [|d ds0 IH]; intros s1; [split; reflexivity|].
    cbn [afterEntries fold_left].
    fold (afterEntries (fst (AddStreamEntry s1 (fst d) (snd d))) ds0).
    destruct (IH (fst (AddStreamEntry s1 (fst d) (snd d)))) as [-> ->].
    split; reflexivity. }
  cbv zeta. rewrite CommitStreamTx_state. cbn [fst set_tx tx lastEntry clients txAfterEntry].
  destruct (Hinv ds (fst (StartStreamTx s))) as [-> ->].
  rewrite afterEntries_lastEntry by exact Hs.
  repeat split.
Qed.

(** ** Answers and connections *)

Lemma answer_nonempty command st : answer command st <> ""%string.
Proof.
  unfold answer.
  destruct (command =? CmdStart), (command =? CmdStop), (command =? CmdHeader),
    (st =? csStopped), (st =? csStarted); discriminate.
Qed.

Lemma written_other h h' b net : h' <> h -> written h b net h' = net h'.
Proof. intros Hne. unfold written. apply fn_lookup_insert_ne. congruence. Qed.

(** X6. Every command of a client that is in the table is answered with
    one packet that the decoder accepts: a result entry with tag 0xff,
    error number 0 and a text that is not empty. The server is returned
    unchanged and no error is reported to the loop. *)
Theorem processCommand_answer_decodes s command clientId h st net :
clients s !! clientId = Some {| conn := Some h; status := st |} ->
exists r,
  processCommand s command clientId net
  = Ret (s, written h (encodeResultEntryToBinary r) net, None) /\
  DecodeBinaryToResultEntry (encodeResultEntryToBinary r) = (r, None) /\
  isEntry r = "255"%byte /\ errorNum r = 0 /\ errorStr r <> [].
Proof.
  intros E.
  pose proof (resultPacket_decodes 0 (answer command st) ltac:(lia)
                (answer_nonempty command st)) as Hd.
  eexists. split; [apply (processCommand_answer _ _ _ _ _ _ E)|].
  split; [exact Hd|]. cbn [isEntry errorNum errorStr].
  split; [reflexivity|]. split; [reflexivity|].
  pose proof (answer_nonempty command st) as Hne.
  destruct (answer command st); [congruence | discriminate].
Qed.

(** X7. A command for a client that is not in the table, sent with the
    server's stream type, panics: the lookup yields the zero record, whose
    connection is [nil], and the result is flushed to it. With another
    stream type the turn ends before the lookup. *)
Theorem handleCommand_unknown_client s command clientId st net :
clients s !! clientId = None ->
handleCommand s clientId command st net
= if st =? streamType s then Panic else Ret (s, net, Return).
Proof.
  intros E. unfold handleCommand.
  destruct (st =? streamType s); cbn [negb]; [|reflexivity].
  assert (Hnil : conn (clients_at s clientId) = None)
    by (unfold clients_at; rewrite E; reflexivity).
  unfold processCommand, sendResultEntry. rewrite Hnil.
  repeat match goal with
  | |- context [if ?b then _ else _] => destruct b
  end; reflexivity.
Qed.

Lemma serve_frame fuel : forall s clientId h st reader net,
clients s !! clientId = Some {| conn := Some h; status := st |} ->
exists net',
  serve fuel s clientId reader net = Ret (s, net') /\
  forall h', h' <> h -> net' h' = net h'.
Proof.
  induction fuel as [|fuel IH]; intros s clientId h st reader net E; cbn [serve].
  - eauto.
  - destruct (readFullUint64 reader) as [[command [e|]] r1]; [eauto|].
    destruct (readFullUint64 r1) as [[st' [e|]] r2]; [eauto|].
    destruct (Z.eq_dec st' (streamType s)) as [->|Hne].
    + rewrite (handleCommand_answer _ _ _ _ _ _ E). cbn [mbind outcome_bind].
      destruct (IH s clientId h st r2
                  (written h (resultPacket 0 (answer command st)) net) E)
        as (net' & Hs & Hf).
      exists net'. split; [exact Hs|].
      intros h' Hh. rewrite (Hf h' Hh). apply written_other. exact Hh.
    + rewrite handleCommand_mismatch by exact Hne. cbn [mbind outcome_bind]. eauto.
Qed.

(** X8. [handleConnection] returns on every input: it neither panics nor
    waits. The server it leaves holds the stopped record of the connection,
    which is not removed when the connection is closed, and no connection
    but its own is written to or closed. *)
Theorem handleConnection_returns s h reader net :
exists net',
  handleConnection s h reader net
  = Ret (set_clients (<[conn_RemoteAddr (net h) := {| conn := Some h; status := csStopped |}]>
                        (clients s)) s, net') /\
  forall h', h' <> h -> net' h' = net h'.
Proof.
  unfold handleConnection, handleConnection_loop. cbv zeta.
  set (s0 := set_clients _ s).
  destruct (serve_frame (S (List.length reader)) s0 (conn_RemoteAddr (net h)) h csStopped
              reader net) as (net1 & Hs & Hf).
  { apply lookup_insert_eq. }
  rewrite Hs. cbn [mbind outcome_bind].
  eexists. split; [reflexivity|].
  intros h' Hh. rewrite fn_lookup_insert_ne by congruence. apply Hf. exact Hh.
Qed.

Lemma runCommands_answers cs : forall s clientId h st net,
clients s !! clientId = Some {| conn := Some h; status := st |} ->
Forall (fun c => snd c = streamType s) cs ->
runCommands s clientId cs net
= Ret (s, fold_left (fun net c => written h (resultPacket 0 (answer (fst c) st)) net) cs net,
       Continue).
Proof.
  induction cs as [|[command st'] cs IH]; intros s clientId h st net E Hall.
  - reflexivity.
  - inversion Hall as [|? ? Hst Hall']. subst. cbn [snd] in Hst. subst st'.
    cbn [runCommands fold_left fst].
    rewrite (handleCommand_answer _ _ _ _ _ _ E). cbn [mbind outcome_bind].
    apply IH; assumption.
Qed.

Lemma fold_left_commandWords {A} (f : A -> Z -> A) cs : forall a,
fold_left (fun a c => f a (fst c)) (commandWords cs) a
= fold_left (fun a c => f a (u64 (fst c))) cs a.
Proof. induction cs as [|c cs IH]; intros a; [reflexivity | apply IH]. Qed.

(** X9. The answers of a connection do not depend on what was sent
    before. When every command carries the server's stream type and the
    input ends within fewer than sixteen bytes after the last command,
    [handleConnection] writes, for each command in order, the answer that
    command gets from a stopped client ("OK" for [Start] and [Header],
    "client already stopped" for [Stop], "invalid command" for the rest),
    and then closes the connection. *)
Theorem handleConnection_answers s h cs rest net :
Forall (fun c => u64 (snd c) = streamType s) cs ->
(List.length rest < 16)%nat ->
let net' := fold_left
              (fun net c => written h (resultPacket 0 (answer (u64 (fst c)) csStopped)) net)
              cs net in
handleConnection s h (commandBytes cs ++ rest) net
= Ret (set_clients (<[conn_RemoteAddr (net h) := {| conn := Some h; status := csStopped |}]>
                      (clients s)) s,
       <[h := conn_Close (net' h)]> net').
Proof.
  intros Hall Hrest net'.
  rewrite handleConnection_commands. cbv zeta.
  set (s0 := set_clients _ s).
  rewrite (runCommands_answers _ s0 _ h csStopped).
  - cbn [mbind outcome_bind].
    rewrite handleConnection_loop_short by exact Hrest. cbn [mbind outcome_bind].
    unfold net'.
    rewrite (fold_left_commandWords
               (fun net c => written h (resultPacket 0 (answer c csStopped)) net)).
    reflexivity.
  - apply lookup_insert_eq.
  - unfold commandWords. rewrite Forall_map. exact Hall.
Qed.

(** ** The client table in runs *)

(** X10. Answers are routed by remote address. When a second connection
    is accepted from the address of a first one, its record replaces the
    first one's, and the answer to a command that then arrives on the first
    connection is written to the second connection; the first connection
    gets nothing. *)
Theorem answers_routed_by_address s net h1 h2 command :
h1 <> h2 ->
conn_RemoteAddr (net h1) = conn_RemoteAddr (net h2) ->
exists net',
  run (s, net) [Accept h1; Accept h2; Command h1 command (streamType s)]
  = Ret (set_clients (<[conn_RemoteAddr (net h2) := {| conn := Some h2; status := csStopped |}]>
                        (clients s)) s, net') /\
  net' = written h2 (resultPacket 0 (answer command csStopped)) net /\
  net' h1 = net h1.
Proof.
  intros Hne Haddr. eexists. split; [|split; [reflexivity|]].
  - cbn [run step mbind outcome_bind]. rewrite Haddr.
    set (s2 := set_clients _ (set_clients _ s)).
    assert (E : clients s2 !! conn_RemoteAddr (net h2)
                = Some {| conn := Some h2; status := csStopped |})
      by apply lookup_insert_eq.
    change (streamType s) with (streamType s2).
    rewrite (handleCommand_answer _ _ _ _ _ _ E). cbn [mbind outcome_bind].
    unfold s2, set_clients. cbn [port fileName streamType clients lastEntry tx fs].
    rewrite insert_insert_eq. reflexivity.
  - apply written_other. exact Hne.
Qed.

Lemma step_keeps_clients (w w' : ServerStream FileStream * (connRef -> C)) e :
step w e = Ret w' ->
(forall clientId, is_Some (clients (fst w) !! clientId) ->
                  is_Some (clients (fst w') !! clientId)) /\
streamType (fst w') = streamType (fst w).
Proof.
  destruct w as [s net]. destruct e as [h|h command st| | |]; cbn [step].
  - intros E. inversion E. cbn. split; [|reflexivity].
    intros clientId Hc.
    destruct (decide (conn_RemoteAddr (net h) = clientId)) as [->|Hd].
    + rewrite lookup_insert_eq. eauto.
    + rewrite lookup_insert_ne by exact Hd. exact Hc.
  - destruct (handleCommand s (conn_RemoteAddr (net h)) command st net)
      as [[[s1 net1] t]| |] eqn:E; cbn [mbind outcome_bind]; [|discriminate..].
    apply handleCommand_state in E as ->.
    destruct t; intros E; inversion E; auto.
  - intros E. inversion E. auto.
  - intros E. inversion E. auto.
  - intros E. inversion E. auto.
Qed.

(** X11. No step of a run removes a client from the table or changes
    the stream type: the clients in the table at the start of a run are in
    it at the end, also those whose connection was closed on the way. *)
Theorem run_keeps_clients es : forall s net s' net',
run (s, net) es = Ret (s', net') ->
(forall clientId, is_Some (clients s !! clientId) -> is_Some (clients s' !! clientId)) /\
streamType s' = streamType s.
Proof.
  induction es as [|e es IH]; intros s net s' net'; cbn [run].
  - intros E. inversion E. auto.
  - destruct (step (s, net) e) as [[s1 net1]| |] eqn:E; cbn [mbind outcome_bind];
      [|discriminate..].
    intros Hrun. apply step_keeps_clients in E as [Hk Ht]. cbn [fst] in Hk, Ht.
    destruct (IH _ _ _ _ Hrun) as [Hk' Ht']. split; [|congruence].
    intros clientId Hc. apply Hk', Hk, Hc.
Qed.

End ServerMore.

(** ** The client's reader *)

Lemma ReadFull_app (b rest : list byte) :
ClientRead.ReadFull (List.length b) (b ++ rest) = (b, None, rest).
Proof.
  unfold ClientRead.ReadFull.
  destruct (Nat.ltb_spec (List.length (b ++ rest)) (List.length b)) as [Hlt|_].
  - rewrite length_app in Hlt. lia.
  - rewrite take_app_length, drop_app_length. reflexivity.
Qed.

Lemma ReadFull_ok n rd b rest :
ClientRead.ReadFull n rd = (b, None, rest) ->
rd = b ++ rest /\ List.length b = n.
Proof.
  unfold ClientRead.ReadFull.
  destruct (Nat.ltb_spec (List.length rd) n) as [Hlt|Hge]; [discriminate|].
  intros E. inversion E. subst. rewrite take_drop. split; [reflexivity|].
  rewrite length_take. lia.
Qed.

(** After the tag, the reader takes the eight fixed bytes and the error
    string of an encoded entry and asks the decoder about the whole packet. *)
Lemma readResultEntry_framing (e : ResultEntry) (rest : list byte) :
isEntry e = ClientRead.PtResult ->
length e = Z.of_nat (List.length (errorStr e)) + 9 ->
length e < 2 ^ 32 ->
ClientRead.readResultEntry (drop 1 (encodeResultEntryToBinary e) ++ rest)
= (fst (DecodeBinaryToResultEntry (encodeResultEntryToBinary e)),
   snd (DecodeBinaryToResultEntry (encodeResultEntryToBinary e)), rest).
Proof.
  intros Htag Hlen Hmax.
  rewrite encodeResultEntryToBinary_cons. rewrite Htag.
  cbn [drop]. unfold ClientRead.readResultEntry.
  change (Z.to_nat (ClientRead.FixedSizeResultEntry - 1)) with 8%nat.
  change (?a :: ?b :: ?c :: ?d :: ?a' :: ?b' :: ?c' :: ?d' :: errorStr e)
    with ([a; b; c; d; a'; b'; c'; d'] ++ errorStr e).
  rewrite <- app_assoc.
  rewrite (ReadFull_app [_; _; _; _; _; _; _; _]).
  cbn [app slice Nat.sub take drop].
  rewrite Uint32_bytes. cbn [default]. unfold id.
  assert (Hu : u32 (length e) = length e) by (apply Z.mod_small; lia).
  rewrite Hu.
  destruct (Z.ltb_spec (length e) ClientRead.FixedSizeResultEntry) as [Hlt|_];
    [unfold ClientRead.FixedSizeResultEntry in Hlt; lia|].
  assert (Hn : Z.to_nat (u32 (length e - ClientRead.FixedSizeResultEntry))
               = List.length (errorStr e)).
  { unfold ClientRead.FixedSizeResultEntry, u32. rewrite Z.mod_small by lia. lia. }
  rewrite Hn, ReadFull_app. cbn [app].
  destruct (DecodeBinaryToResultEntry _) as [e' [er|]]; reflexivity.
Qed.

(** X12. The client reads back what the server's encoder wrote. For a
    result entry with tag 0xff, a 32-bit error number, an error string that
    is not empty and a [length] field that counts the nine fixed bytes and the
    string without overflow, [readResultEntry], called after the tag byte
    has been read, returns the entry itself and leaves the bytes that
    follow the packet unread. *)
Theorem readResultEntry_encoded (e : ResultEntry) (rest : list byte) :
isEntry e = ClientRead.PtResult ->
0 <= errorNum e < 2 ^ 32 ->
errorStr e <> [] ->
length e = Z.of_nat (List.length (errorStr e)) + 9 ->
length e < 2 ^ 32 ->
ClientRead.readResultEntry (drop 1 (encodeResultEntryToBinary e) ++ rest) = (e, None, rest).
Proof.
  intros Htag Hnum Hne Hlen Hmax.
  rewrite readResultEntry_framing by assumption.
  rewrite decode_encode_nonempty; [reflexivity|..]; try assumption.
  - lia.
  - rewrite Hlen. unfold u32. rewrite Z.mod_small by lia. lia.
Qed.

(** X13. A result packet whose length field is nine or less is never
    delivered: below nine the reader itself refuses it ("error reading
    result entry"); at nine, the packet of an empty error string, the reader
    accepts the length but the decoder refuses the nine bytes ("invalid
    binary result entry"). In both cases the zero entry is returned and
    exactly the eight fixed bytes have been read. *)
Theorem readResultEntry_short (l0 l1 l2 l3 n0 n1 n2 n3 : byte) (rest : list byte) (L : Z) :
BigEndian.Uint32 [l0; l1; l2; l3] = Some L ->
L <= 9 ->
ClientRead.readResultEntry (l0 :: l1 :: l2 :: l3 :: n0 :: n1 :: n2 :: n3 :: rest)
= (ResultEntry_zero,
   Some (if L <? 9 then "error reading result entry"%string
         else "invalid binary result entry"%string),
   rest).
Proof.
  intros HL Hle. unfold ClientRead.readResultEntry.
  change (Z.to_nat (ClientRead.FixedSizeResultEntry - 1)) with 8%nat.
  change (l0 :: l1 :: l2 :: l3 :: n0 :: n1 :: n2 :: n3 :: rest)
    with ([l0; l1; l2; l3; n0; n1; n2; n3] ++ rest).
  rewrite (ReadFull_app [_; _; _; _; _; _; _; _]).
  cbn [app slice Nat.sub take drop]. rewrite HL. cbn [default]. unfold id.
  unfold ClientRead.FixedSizeResultEntry.
  destruct (Z.ltb_spec L 9) as [Hlt|Hge]; [reflexivity|].
  assert (L = 9) as -> by lia.
  change (Z.to_nat (u32 (9 - 9))) with 0%nat.
  pose proof (ReadFull_app [] rest) as E0. cbn [List.length app] in E0.
  rewrite E0. reflexivity.
Qed.

Section ClientReadFacts.

Context {C : Type} `{NetConn C} {HeaderEntry FileEntry : Type}.
Variable HeaderEntry_zero : HeaderEntry.
Variable FileEntry_zero : FileEntry.
Variable decodeBinaryToHeaderEntry : list byte -> HeaderEntry * option error.
Variable DecodeBinaryToFileEntry : list byte -> FileEntry * option error.

Local Abbreviation readDataEntry := (ClientRead.readDataEntry FileEntry_zero DecodeBinaryToFileEntry).
Local Abbreviation readHeaderEntry :=
  (ClientRead.readHeaderEntry HeaderEntry_zero decodeBinaryToHeaderEntry).
Local Abbreviation readLoop :=
  (ClientRead.readLoop HeaderEntry_zero FileEntry_zero decodeBinaryToHeaderEntry
     DecodeBinaryToFileEntry).
Local Abbreviation readEntries :=
  (ClientRead.readEntries HeaderEntry_zero FileEntry_zero decodeBinaryToHeaderEntry
     DecodeBinaryToFileEntry).

Lemma ReadFull_length n rd b e rest :
ClientRead.ReadFull n rd = (b, e, rest) -> (List.length rest <= List.length rd)%nat.
Proof.
  unfold ClientRead.ReadFull.
  destruct (List.length rd <? n)%nat; intros E; inversion E; subst.
  - cbn. lia.
  - rewrite length_drop. lia.
Qed.

Lemma readResultEntry_length rd r e rest :
ClientRead.readResultEntry rd = (r, e, rest) -> (List.length rest <= List.length rd)%nat.
Proof.
  unfold ClientRead.readResultEntry.
  destruct (ClientRead.ReadFull _ rd) as [[b1 [e1|]] rd1] eqn:E1;
    apply ReadFull_length in E1.
  - intros E. inversion E. subst. lia.
  - destruct (_ <? _).
    + intros E. inversion E. subst. lia.
    + destruct (ClientRead.ReadFull _ rd1) as [[b2 [e2|]] rd2] eqn:E2;
        apply ReadFull_length in E2.
      * intros E. inversion E. subst. lia.
      * destruct (DecodeBinaryToResultEntry _) as [r' [e'|]];
          intros E; inversion E; subst; lia.
Qed.

Lemma readDataEntry_length rd d e rest :
readDataEntry rd = (d, e, rest) -> (List.length rest <= List.length rd)%nat.
Proof.
  unfold ClientRead.readDataEntry.
  destruct (ClientRead.ReadFull _ rd) as [[b1 [e1|]] rd1] eqn:E1;
    apply ReadFull_length in E1.
  - intros E. inversion E. subst. lia.
  - destruct (_ <? _).
    + intros E. inversion E. subst. lia.
    + destruct (ClientRead.ReadFull _ rd1) as [[b2 [e2|]] rd2] eqn:E2;
        apply ReadFull_length in E2.
      * intros E. inversion E. subst. lia.
      * destruct (DecodeBinaryToFileEntry _) as [d' [e'|]];
          intros E; inversion E; subst; lia.
Qed.

Lemma readHeaderEntry_length rd hd e rest :
readHeaderEntry rd = (hd, e, rest) -> (List.length rest <= List.length rd)%nat.
Proof.
  unfold ClientRead.readHeaderEntry.
  destruct (ClientRead.ReadFull _ rd) as [[b1 [e1|]] rd1] eqn:E1;
    apply ReadFull_length in E1.
  - intros E. inversion E. subst. lia.
  - destruct (negb _).
    + intros E. inversion E. subst. lia.
    + destruct (decodeBinaryToHeaderEntry _) as [h' [e'|]];
        intros E; inversion E; subst; lia.
Qed.

Lemma ReadFull_one (b : byte) (rd : list byte) :
ClientRead.ReadFull 1 (b :: rd) = ([b], None, rd).
Proof. exact (ReadFull_app [b] rd). Qed.

(** Fuel above the number of bytes left does not matter. *)
Lemma readLoop_fuel fuel1 : forall fuel2 rd ch,
(List.length rd < fuel1)%nat -> (List.length rd < fuel2)%nat ->
readLoop fuel1 rd ch = readLoop fuel2 rd ch.
Proof.
  induction fuel1 as [|fuel1 IH]; intros fuel2 rd ch H1 H2; [lia|].
  destruct fuel2 as [|fuel2]; [lia|].
  cbn [ClientRead.readLoop].
  destruct (ClientRead.ReadFull 1 rd) as [[packet [e|]] rd1] eqn:E1; [reflexivity|].
  apply ReadFull_ok in E1 as [-> Hp]. rewrite length_app, Hp in H1, H2.
  destruct (Byte.eqb _ ClientRead.PtResult).
  { destruct (ClientRead.readResultEntry rd1) as [[r [e|]] rd2] eqn:E2; [reflexivity|].
    apply readResultEntry_length in E2.
    destruct (ClientRead.send _ _ r) as [q| |]; cbn [mbind outcome_bind];
      [apply IH; lia | reflexivity..]. }
  destruct (Byte.eqb _ ClientRead.PtHeader).
  { destruct (readHeaderEntry rd1) as [[hd [e|]] rd2] eqn:E2; [reflexivity|].
    apply readHeaderEntry_length in E2.
    destruct (ClientRead.send _ _ hd) as [q| |]; cbn [mbind outcome_bind];
      [apply IH; lia | reflexivity..]. }
  destruct (Byte.eqb _ ClientRead.PtData).
  { destruct (readDataEntry rd1) as [[d [e|]] rd2] eqn:E2; [reflexivity|].
    apply readDataEntry_length in E2.
    destruct (ClientRead.send _ _ d) as [q| |]; cbn [mbind outcome_bind];
      [apply IH; lia | reflexivity..]. }
  apply IH; lia.
Qed.




(** X15. A byte that is no packet tag is skipped: the reader goes on with
    the byte after it, as if the byte had not been sent. *)
Theorem readEntries_skips_unknown conn (tag : byte) rd ch net :
tag <> ClientRead.PtResult -> tag <> ClientRead.PtHeader -> tag <> ClientRead.PtData ->
readEntries conn (tag :: rd) ch net = readEntries conn rd ch net.
Proof.
  intros H1 H2 H3. unfold ClientRead.readEntries.
  destruct conn as [h|]; [|reflexivity]. f_equal.
  set (after := readLoop (S (List.length rd)) rd ch).
  cbn [ClientRead.readLoop].
  rewrite ReadFull_one. cbn [nth].
  destruct (Byte.eqb tag ClientRead.PtResult) eqn:E1; [apply byte_dec_bl in E1; contradiction|].
  destruct (Byte.eqb tag ClientRead.PtHeader) eqn:E2; [apply byte_dec_bl in E2; contradiction|].
  destruct (Byte.eqb tag ClientRead.PtData) eqn:E3; [apply byte_dec_bl in E3; contradiction|].
  subst after. apply readLoop_fuel; cbn [List.length app]; lia.
Qed.

(** X16. Framing of a data packet. After the tag, [readDataEntry] reads
    sixteen fixed bytes, whose first four are the length field. A length
    below 17 is refused with "error reading data entry" and the zero entry.
    Otherwise the reader takes length - 17 more bytes and hands the decoder
    the tag 0x02, the sixteen bytes and those payload bytes, no more and no
    less; what the decoder returns is returned, and the bytes after the
    packet stay unread. *)
Theorem readDataEntry_framing (fixed payload rest : list byte) (L : Z) :
List.length fixed = 16%nat ->
BigEndian.Uint32 (take 4 fixed) = Some L ->
(L < 17 ->
 readDataEntry (fixed ++ rest)
 = (FileEntry_zero, Some "error reading data entry"%string, rest)) /\
(17 <= L -> List.length payload = Z.to_nat (L - 17) ->
 readDataEntry (fixed ++ payload ++ rest)
 = (fst (DecodeBinaryToFileEntry (ClientRead.PtData :: fixed ++ payload)),
    snd (DecodeBinaryToFileEntry (ClientRead.PtData :: fixed ++ payload)),
    rest)).
Proof.
  intros Hf HL.
  pose proof (Uint32_range _ _ HL) as HLr.
  assert (Hs : slice ([ClientRead.PtData] ++ fixed) 1 5 = take 4 fixed) by reflexivity.
  split.
  - intros Hlt. unfold ClientRead.readDataEntry.
    change (Z.to_nat (ClientRead.FixedSizeFileEntry - 1)) with 16%nat.
    rewrite <- Hf, ReadFull_app, Hs, HL. cbn [default]. unfold id.
    destruct (Z.ltb_spec L ClientRead.FixedSizeFileEntry) as [_|Hge];
      [reflexivity | unfold ClientRead.FixedSizeFileEntry in Hge; lia].
  - intros Hge Hp. unfold ClientRead.readDataEntry.
    change (Z.to_nat (ClientRead.FixedSizeFileEntry - 1)) with 16%nat.
    rewrite <- Hf, ReadFull_app, Hs, HL. cbn [default]. unfold id.
    destruct (Z.ltb_spec L ClientRead.FixedSizeFileEntry) as [Hlt|_];
      [unfold ClientRead.FixedSizeFileEntry in Hlt; lia|].
    assert (Hn : Z.to_nat (u32 (L - ClientRead.FixedSizeFileEntry)) = List.length payload).
    { rewrite Hp. unfold ClientRead.FixedSizeFileEntry, u32.
      rewrite Z.mod_small by lia. reflexivity. }
    rewrite Hn, ReadFull_app. rewrite <- app_assoc. cbn [app].
    destruct (DecodeBinaryToFileEntry _) as [d [e|]]; reflexivity.
Qed.

(** Framing of a header packet. After the tag, [readHeaderEntry]
    reads 28 bytes and hands the decoder the tag 0x01 and these bytes; what
    the decoder returns is returned and the bytes after the packet stay
    unread. When fewer than 28 bytes arrive, the zero header is returned
    with the read error and the decoder is not asked. *)
Lemma readHeaderEntry_framing (rd : list byte) :
if (List.length rd <? 28)%nat then
  exists e, readHeaderEntry rd = (HeaderEntry_zero, Some e, [])
else
  readHeaderEntry rd
  = (fst (decodeBinaryToHeaderEntry (ClientRead.PtHeader :: take 28 rd)),
     snd (decodeBinaryToHeaderEntry (ClientRead.PtHeader :: take 28 rd)),
     drop 28 rd).
Proof.
  unfold ClientRead.readHeaderEntry, ClientRead.ReadFull.
  change (Z.to_nat (ClientRead.headerSize - 1)) with 28%nat.
  destruct (Nat.ltb_spec (List.length rd) 28) as [Hlt|Hge]; [eauto|].
  rewrite length_take, Nat.min_l by lia.
  change (negb (Z.of_nat 28 =? ClientRead.headerSize - 1)) with false. cbv iota.
  cbn [app].
  destruct (decodeBinaryToHeaderEntry _) as [hd [e|]]; reflexivity.
Qed.

End ClientReadFacts.

(** ** The client's commands *)

Section ClientMore.

Context {C : Type} `{NetConn C} {HeaderEntry : Type}.
Implicit Types (c : Client.StreamClient HeaderEntry) (net : connRef -> C).

Lemma u64_u64 (z : Z) : u64 (u64 z) = u64 z.
Proof. unfold u64. apply Z.mod_mod. lia. Qed.

Lemma writeFullUint64_conn value h net :
Client.writeFullUint64 value (Some h) net
= Ret (written h (BigEndian.PutUint64 (u64 value)) net,
       snd (conn_Write (net h) (BigEndian.PutUint64 (u64 value)))).
Proof.
  unfold Client.writeFullUint64, written.
  destruct (conn_Write (net h) (BigEndian.PutUint64 (u64 value))) as [c' [e|]];
    reflexivity.
Qed.

(** X17. When the first write of a valid command fails, [ExecCommand]
    returns the error of that write: the stream type is not sent, no result
    is taken from the queue and the client is unchanged. *)
Theorem ExecCommand_write_error c cmd h net e :
CmdStart <= cmd <= CmdHeader ->
Client.conn c = Some h ->
snd (conn_Write (net h) (BigEndian.PutUint64 (u64 cmd))) = Some e ->
Client.ExecCommand c cmd net
= Ret (c, written h (BigEndian.PutUint64 (u64 cmd)) net, Some e).
Proof.
  intros [H1 H2] Hc He. unfold Client.ExecCommand.
  destruct (Z.ltb_spec cmd CmdStart); [lia|].
  destruct (Z.gtb_spec cmd CmdHeader); [lia|]. cbn [orb].
  unfold Client.sendCommand. rewrite Hc, writeFullUint64_conn, u64_u64, He.
  reflexivity.
Qed.

(** X18. A result with error number 0 ends a command that was written
    without error in success. [Start] and [Stop] take the result off the
    queue and return no error. [Header] then takes the first queued header
    and stores it in the client's [Header]; when no header is queued it
    waits for one. *)
Theorem ExecCommand_success c cmd net net' r q :
CmdStart <= cmd <= CmdHeader ->
Client.sendCommand c cmd net = Ret (net', None) ->
Client.results c = r :: q ->
errorNum r = 0 ->
Client.ExecCommand c cmd net
= if cmd =? CmdHeader then
    match Client.headers c with
    | hd :: hq =>
        Ret (Client.set_Header hd (Client.set_headers hq (Client.set_results q c)),
             net', None)
    | [] => Blocked
    end
  else Ret (Client.set_results q c, net', None).
Proof.
  intros [H1 H2] Hsend Hq Hr. unfold Client.ExecCommand.
  destruct (Z.ltb_spec cmd CmdStart); [lia|].
  destruct (Z.gtb_spec cmd CmdHeader); [lia|]. cbn [orb].
  rewrite Hsend. cbn [mbind outcome_bind].
  unfold Client.getResult. rewrite Hq. cbn [mbind outcome_bind].
  rewrite Hr. change (negb (0 =? u32 Client.CmdErrOK)) with false. cbv iota.
  destruct (cmd =? CmdHeader); [|reflexivity].
  unfold Client.getHeader. cbn [Client.set_results Client.headers].
  destruct (Client.headers c) as [|hd hq]; reflexivity.
Qed.

End ClientMore.

(** X19. The bytes of a command on the wire. On an open connection that
    records what is written, [sendCommand] succeeds and appends the command
    id and the stream type as big-endian 64-bit words, and for [Start] the
    entry to start from as a third word; nothing else is written, the
    connection stays open and the other connections are untouched. *)
Theorem sendCommand_wire {HeaderEntry : Type} (c : Client.StreamClient HeaderEntry)
  (cmd : Z) (h : connRef) (net : connRef -> wire) :
Client.conn c = Some h ->
wire_closed (net h) = false ->
exists net',
  Client.sendCommand c cmd net = Ret (net', None) /\
  wire_sent (net' h)
  = wire_sent (net h) ++ BigEndian.PutUint64 (u64 cmd)
    ++ BigEndian.PutUint64 (u64 (Client.streamType c))
    ++ (if cmd =? CmdStart then BigEndian.PutUint64 (u64 (Client.FromEntry c)) else []) /\
  wire_closed (net' h) = false /\
  forall h', h' <> h -> net' h' = net h'.
Proof.
  intros Hc Hopen.
  assert (Hw : forall (net0 : connRef -> wire) v,
            wire_closed (net0 h) = false ->
            Client.writeFullUint64 v (Some h) net0
            = Ret (written h (BigEndian.PutUint64 (u64 v)) net0, None) /\
            wire_sent (written h (BigEndian.PutUint64 (u64 v)) net0 h)
            = wire_sent (net0 h) ++ BigEndian.PutUint64 (u64 v) /\
            wire_closed (written h (BigEndian.PutUint64 (u64 v)) net0 h) = false).
  { intros net0 v Ho. rewrite writeFullUint64_conn.
    unfold written. rewrite fn_lookup_insert.
    cbn [conn_Write wire_NetConn]. rewrite Ho. cbn. auto. }
  unfold Client.sendCommand. rewrite Hc.
  destruct (Hw net (u64 cmd) Hopen) as (E1 & S1 & O1). rewrite E1. cbn [mbind outcome_bind].
  set (net1 := written h _ net) in *.
  destruct (Hw net1 (u64 (Client.streamType c)) O1) as (E2 & S2 & O2).
  rewrite E2. cbn [mbind outcome_bind].
  set (net2 := written h _ net1) in *.
  rewrite !u64_u64 in *.
  destruct (cmd =? CmdStart).
  - destruct (Hw net2 (Client.FromEntry c) O2) as (E3 & S3 & O3).
    rewrite E3. cbn [mbind outcome_bind].
    eexists. split; [reflexivity|]. split; [|split; [exact O3|]].
    + rewrite S3, S2, S1, <- !app_assoc. reflexivity.
    + intros h' Hh. unfold net2, net1. rewrite !written_other by exact Hh. reflexivity.
  - eexists. split; [reflexivity|]. split; [|split; [exact O2|]].
    + rewrite S2, S1, app_nil_r, <- !app_assoc. reflexivity.
    + intros h' Hh. unfold net2, net1. rewrite !written_other by exact Hh. reflexivity.
Qed.

(** ** The demo application *)

Lemma LittleEndian_Uint64_bytes (v : Z) (rest : list byte) :
LittleEndian.Uint64
  (byte_of_Z v :: byte_of_Z (Z.shiftr v 8) :: byte_of_Z (Z.shiftr v 16)
   :: byte_of_Z (Z.shiftr v 24) :: byte_of_Z (Z.shiftr v 32) :: byte_of_Z (Z.shiftr v 40)
   :: byte_of_Z (Z.shiftr v 48) :: byte_of_Z (Z.shiftr v 56) :: rest)
= Some (u64 v).
Proof.
  unfold LittleEndian.Uint64, u64. f_equal.
  rewrite !Z_of_byte_of_Z, !Z.shiftr_div_pow2 by lia.
  pose proof (Z.mod_pos_bound v 256).
  pose proof (Z.mod_pos_bound (v / 2 ^ 8) 256).
  pose proof (Z.mod_pos_bound (v / 2 ^ 16) 256).
  pose proof (Z.mod_pos_bound (v / 2 ^ 24) 256).
  pose proof (Z.mod_pos_bound (v / 2 ^ 32) 256).
  pose proof (Z.mod_pos_bound (v / 2 ^ 40) 256).
  pose proof (Z.mod_pos_bound (v / 2 ^ 48) 256).
  rewrite (lor_shiftl_add _ _ 8) by lia.
  rewrite (lor_shiftl_add _ _ 16) by lia.
  rewrite (lor_shiftl_add _ _ 24) by lia.
  rewrite (lor_shiftl_add _ _ 32) by lia.
  rewrite (lor_shiftl_add _ _ 40) by lia.
  rewrite (lor_shiftl_add _ _ 48) by lia.
  rewrite (lor_shiftl_add _ _ 56) by lia.
  change (2 ^ 8) with 256 in *. change (2 ^ 16) with 65536 in *.
  change (2 ^ 24) with 16777216 in *. change (2 ^ 32) with 4294967296 in *.
  change (2 ^ 40) with 1099511627776 in *. change (2 ^ 48) with 281474976710656 in *.
  change (2 ^ 56) with 72057594037927936 in *.
  change (2 ^ 64) with 18446744073709551616 in *.
  Z.to_euclidean_division_equations. lia.
Qed.

(** X20. The producer and the sanity check agree on where the numbers
    are. The block number that [fakeDataBlockStart] writes is what the
    check reads from bytes 8 to 16 of the data, and the number that
    [fakeBookmark] writes is what the check reads from bytes 1 to 9, for
    every 64-bit number and whatever the time stamp; both data are long
    enough for these slices. *)
Theorem fake_numbers_read_back (now blockNum : Z) :
LittleEndian.Uint64 (slice (Main.fakeDataBlockStart now blockNum) 8 16) = Some (u64 blockNum) /\
List.length (Main.fakeDataBlockStart now blockNum) = 78%nat /\
LittleEndian.Uint64 (slice (Main.fakeBookmark blockNum) 1 9) = Some (u64 blockNum) /\
List.length (Main.fakeBookmark blockNum) = 9%nat.
Proof.
  split; [|split; [reflexivity|split; [|reflexivity]]].
  - unfold Main.fakeDataBlockStart, LittleEndian.AppendUint64, slice.
    cbn [app Nat.sub take drop].
    apply (LittleEndian_Uint64_bytes blockNum []).
  - unfold Main.fakeBookmark, LittleEndian.AppendUint64, slice, Main.bytes_of.
    cbn [map app Nat.sub take drop].
    apply (LittleEndian_Uint64_bytes blockNum []).
Qed.

Section SanityFacts.

Variable EtBookmark : Z.

Local Abbreviation check := (Main.checkEntryBlockSanity EtBookmark).
Local Abbreviation checkAll := (Main.checkAll EtBookmark).

Lemma check_entry_sequence g e FromEntry TotalEntries :
0 <= FromEntry -> 0 <= Main.sanityEntry g ->
exists g1,
  Main.initSanityEntry g1 = true /\
  Main.sanityEntry g1 = Main.expectedEntry g FromEntry /\
  Main.initSanityBlock g1 = Main.initSanityBlock g /\
  Main.initSanityBookmark g1 = Main.initSanityBookmark g /\
  Main.sanityBlock g1 = Main.sanityBlock g /\
  Main.sanityBookmark g1 = Main.sanityBookmark g /\
  (Main.Number e <> Main.expectedEntry g FromEntry ->
   check g e FromEntry TotalEntries
   = Ret (g1, Some "sanity check failed for entry sequence"%string)).
Proof.
  intros Hf Hs. unfold Main.checkEntryBlockSanity, Main.expectedEntry.
  destruct g as [ie ib ik se sb sk]. cbn [Main.initSanityEntry Main.sanityEntry] in *.
  destruct ie; cbn [negb].
  - exists (Main.mkSanity true ib ik se sb sk).
    do 6 (split; [reflexivity|]). intros Hne.
    cbn [Main.sanityEntry].
    destruct (Z.gtb_spec se 0).
    + destruct (Z.eqb_spec (Main.Number e) se); [contradiction | reflexivity].
    + assert (se = 0) as -> by lia.
      destruct (Z.eqb_spec (Main.Number e) 0); [contradiction | reflexivity].
  - exists (Main.mkSanity true ib ik FromEntry sb sk).
    do 6 (split; [reflexivity|]). cbn [Main.sanityEntry Main.initSanityBlock
      Main.initSanityBookmark Main.sanityBlock Main.sanityBookmark].
    intros Hne.
    destruct (Z.gtb_spec FromEntry 0) as [Hgt|Hle].
    + cbn [Main.sanityEntry].
      assert (Hg : (FromEntry >? 0) = true) by (apply Z.gtb_gt; lia). rewrite Hg.
      destruct (Z.eqb_spec (Main.Number e) FromEntry); [contradiction | reflexivity].
    + assert (FromEntry = 0) as -> by lia. cbn [Main.sanityEntry].
      change (0 >? 0) with false. cbv iota.
      destruct (Z.eqb_spec (Main.Number e) 0); [contradiction | reflexivity].
Qed.

(** X21. A gap or a repeat in the entry numbers is always caught. When
    the number of an entry is not the number expected next, the check
    returns "sanity check failed for entry sequence", whatever the type and
    the data of the entry, and goes on expecting the same number. *)
Theorem check_catches_entry_gap g e FromEntry TotalEntries :
0 <= FromEntry -> 0 <= Main.sanityEntry g ->
Main.Number e <> Main.expectedEntry g FromEntry ->
exists g',
  check g e FromEntry TotalEntries
  = Ret (g', Some "sanity check failed for entry sequence"%string) /\
  Main.expectedEntry g' FromEntry = Main.expectedEntry g FromEntry.
Proof.
  intros Hf Hs Hne.
  destruct (check_entry_sequence g e FromEntry TotalEntries Hf Hs)
    as (g1 & Hi & He & _ & _ & _ & _ & Hfail).
  exists g1. split; [apply Hfail, Hne|].
  unfold Main.expectedEntry at 1. rewrite Hi. exact He.
Qed.

Lemma check_entry_ok g e FromEntry TotalEntries :
0 <= FromEntry -> 0 <= Main.sanityEntry g ->
Main.Number e = Main.expectedEntry g FromEntry ->
(Main.Type_ e = Main.EtL2BlockStart -> (16 <= List.length (Main.Data e))%nat) ->
(Main.Type_ e = EtBookmark -> (9 <= List.length (Main.Data e))%nat) ->
exists g',
  check g e FromEntry TotalEntries
  = Ret (g', if u64 (Main.Number e + 1) >=? TotalEntries
             then Some "sanity check finished"%string else None) /\
  Main.initSanityEntry g' = true /\
  Main.sanityEntry g' = u64 (Main.Number e + 1).
Proof.
  intros Hf Hs Hn Hb Hk. unfold Main.checkEntryBlockSanity.
  set (g1 := if negb (Main.initSanityEntry g) then _ else g).
  assert (H1 : Main.initSanityEntry g1 = true /\
               Main.sanityEntry g1 = Main.expectedEntry g FromEntry).
  { unfold g1, Main.expectedEntry.
    destruct (Main.initSanityEntry g) eqn:Eg;
      cbn [negb Main.initSanityEntry Main.sanityEntry]; [auto|].
    split; [reflexivity|]. destruct (Z.gtb_spec FromEntry 0); lia. }
  destruct H1 as [Hi He].
  assert (Hpos : 0 <= Main.sanityEntry g1).
  { rewrite He. unfold Main.expectedEntry. destruct (Main.initSanityEntry g); lia. }
  assert (Hc : (if Main.sanityEntry g1 >? 0 then negb (Main.Number e =? Main.sanityEntry g1)
                else negb (Main.Number e =? 0)) = false).
  { rewrite He, <- Hn. destruct (Z.gtb_spec (Main.Number e) 0).
    - rewrite Z.eqb_refl. reflexivity.
    - assert (Main.Number e = 0) as -> by lia. reflexivity. }
  rewrite Hc. rewrite He, <- Hn. clear Hc.
  destruct (Main.Type_ e =? Main.EtL2BlockStart) eqn:Eb.
  - apply Z.eqb_eq in Eb. specialize (Hb Eb).
    destruct (Nat.ltb_spec (List.length (Main.Data e)) 16); [lia|].
    destruct (Main.sequenceCheck _ _ _) as [x b]. cbn [mbind outcome_bind].
    destruct (Main.Type_ e =? EtBookmark) eqn:Ek.
    + apply Z.eqb_eq in Ek. specialize (Hk Ek).
      destruct (Nat.ltb_spec (List.length (Main.Data e)) 9); [lia|].
      destruct (Main.sequenceCheck _ _ _) as [y c]. cbn [mbind outcome_bind].
      eexists. split; [destruct (_ >=? _); reflexivity|]. split; [exact Hi | reflexivity].
    + cbn [mbind outcome_bind].
      eexists. split; [destruct (_ >=? _); reflexivity|]. split; [exact Hi | reflexivity].
  - cbn [mbind outcome_bind].
    destruct (Main.Type_ e =? EtBookmark) eqn:Ek.
    + apply Z.eqb_eq in Ek. specialize (Hk Ek).
      destruct (Nat.ltb_spec (List.length (Main.Data e)) 9); [lia|].
      destruct (Main.sequenceCheck _ _ _) as [y c]. cbn [mbind outcome_bind].
      eexists. split; [destruct (_ >=? _); reflexivity|]. split; [exact Hi | reflexivity].
    + cbn [mbind outcome_bind].
      eexists. split; [destruct (_ >=? _); reflexivity|]. split; [exact Hi | reflexivity].
Qed.

Lemma checkAll_contiguous_from es : forall g FromEntry TotalEntries,
0 <= FromEntry -> 0 <= Main.sanityEntry g ->
(forall i e, es !! i = Some e ->
   Main.Number e = Main.expectedEntry g FromEntry + Z.of_nat i /\
   (Main.Type_ e = Main.EtL2BlockStart -> (16 <= List.length (Main.Data e))%nat) /\
   (Main.Type_ e = EtBookmark -> (9 <= List.length (Main.Data e))%nat)) ->
Main.expectedEntry g FromEntry + Z.of_nat (List.length es) < TotalEntries ->
TotalEntries <= 2 ^ 64 ->
exists g',
  checkAll g es FromEntry TotalEntries = Ret (g', None) /\
  Main.expectedEntry g' FromEntry
  = Main.expectedEntry g FromEntry + Z.of_nat (List.length es) /\
  0 <= Main.sanityEntry g'.
Proof.
  induction es as [|e es IH]; intros g FromEntry TotalEntries Hf Hs Hall Hlt Hmax.
  - exists g. cbn [Main.checkAll List.length]. split; [reflexivity|]. split; lia.
  - cbn [Main.checkAll].
    destruct (Hall 0%nat e eq_refl) as (Hn & Hb & Hk).
    rewrite Z.add_0_r in Hn.
    assert (Hexp : 0 <= Main.expectedEntry g FromEntry)
      by (unfold Main.expectedEntry; destruct (Main.initSanityEntry g); lia).
    destruct (check_entry_ok g e FromEntry TotalEntries Hf Hs Hn Hb Hk)
      as (g1 & Hc & Hi & Hse).
    cbn [List.length] in Hlt.
    assert (Hu : u64 (Main.Number e + 1) = Main.Number e + 1)
      by (apply Z.mod_small; lia).
    rewrite Hu in Hc, Hse.
    destruct (Z.geb_spec (Main.Number e + 1) TotalEntries) as [Hge|_]; [lia|].
    rewrite Hc. cbn [mbind outcome_bind].
    assert (He1 : Main.expectedEntry g1 FromEntry = Main.expectedEntry g FromEntry + 1)
      by (unfold Main.expectedEntry at 1; rewrite Hi, Hse, Hn; reflexivity).
    destruct (IH g1 FromEntry TotalEntries) as (g' & Hrun & Hexp' & Hpos'); try lia.
    + intros i e' Hi'. destruct (Hall (S i) e' Hi') as (Hn' & Hb' & Hk').
      split; [|split; assumption]. rewrite He1. lia.
    + exists g'. split; [exact Hrun|]. split; [|exact Hpos'].
      rewrite Hexp', He1. cbn [List.length]. lia.
Qed.

(** X22. A stream without gaps in the entry numbers passes the check,
    whatever its block numbers and bookmarks are: a mismatch in these is
    logged, never returned. From the initial state, when the entries are
    numbered from [FromEntry] on without gap, the data of block starts has
    sixteen bytes at least and that of bookmarks nine, and the stream stops
    short of the last entry of the file, every call returns no error, and
    the number expected next is the one after the last entry. *)
Theorem checkAll_contiguous es FromEntry TotalEntries :
0 <= FromEntry ->
(forall i e, es !! i = Some e ->
   Main.Number e = FromEntry + Z.of_nat i /\
   (Main.Type_ e = Main.EtL2BlockStart -> (16 <= List.length (Main.Data e))%nat) /\
   (Main.Type_ e = EtBookmark -> (9 <= List.length (Main.Data e))%nat)) ->
FromEntry + Z.of_nat (List.length es) < TotalEntries ->
TotalEntries <= 2 ^ 64 ->
exists g',
  checkAll Main.sanity_init es FromEntry TotalEntries = Ret (g', None) /\
  Main.expectedEntry g' FromEntry = FromEntry + Z.of_nat (List.length es).
Proof.
  intros Hf Hall Hlt Hmax.
  destruct (checkAll_contiguous_from es Main.sanity_init FromEntry TotalEntries)
    as (g' & Hrun & Hexp & _); try assumption; [cbn; lia|].
  exists g'. split; [exact Hrun | exact Hexp].
Qed.

End SanityFacts.

(** ** Runs of the model for the further properties *)

(** The bytes of an "OK" answer are accepted and encode back. *)
Lemma encode_decode_accepted_witness :
DecodeBinaryToResultEntry (resultPacket 0 "OK") = (demoOk, None) /\
encodeResultEntryToBinary demoOk = resultPacket 0 "OK".
Proof.
  assert (Hd : DecodeBinaryToResultEntry (resultPacket 0 "OK") = (demoOk, None))
    by (vm_compute; reflexivity).
  split; [exact Hd | exact (encode_decode_accepted _ _ Hd)].
Defined.

(** The second and the fourth call on the fresh server. *)
Lemma AddStreamEntry_numbers_differ_witness :
0 <= lastEntry demoServer < 2 ^ 64 /\
fst (snd (AddStreamEntry (afterEntries demoServer [(1, [])]) 2 []))
<> fst (snd (AddStreamEntry
               (afterEntries (fst (AddStreamEntry (afterEntries demoServer [(1, [])]) 2 []))
                  [(3, [])])
               1 [])).
Proof.
  assert (Hs : 0 <= lastEntry demoServer < 2 ^ 64) by (change (lastEntry demoServer) with 0; lia).
  assert (Hk : Z.of_nat (List.length [(3, @nil byte)]) + 1 < 2 ^ 64) by (cbn; lia).
  split; [exact Hs|].
  exact (AddStreamEntry_numbers_differ demoServer [(1, [])] [(3, [])] 2 [] 1 [] Hs Hk).
Defined.

(** A bracket around three entries on the fresh server. *)
Lemma transaction_bracket_witness :
let ds := [(1, []); (2, []); (3, [])] in
let s3 := fst (CommitStreamTx (afterEntries (fst (StartStreamTx demoServer)) ds)) in
0 <= lastEntry demoServer < 2 ^ 64 /\
tx s3 = {| tx_status := txNone; txAfterEntry := 0 |} /\
lastEntry s3 = 3 /\
clients s3 = clients demoServer.
Proof.
  assert (Hs : 0 <= lastEntry demoServer < 2 ^ 64) by (change (lastEntry demoServer) with 0; lia).
  split; [exact Hs|].
  exact (transaction_bracket demoServer [(1, []); (2, []); (3, [])] Hs).
Defined.

(** [Header] on the accepted connection 0. *)
Lemma processCommand_answer_decodes_witness :
clients demoAccepted !! demoAddr = Some {| conn := Some O; status := csStopped |} /\
exists r,
  processCommand demoAccepted CmdHeader demoAddr demoNet
  = Ret (demoAccepted, written O (encodeResultEntryToBinary r) demoNet, None) /\
  DecodeBinaryToResultEntry (encodeResultEntryToBinary r) = (r, None) /\
  isEntry r = "255"%byte /\ errorNum r = 0 /\ errorStr r <> [].
Proof.
  assert (E : clients demoAccepted !! demoAddr
              = Some {| conn := Some O; status := csStopped |}) by (vm_compute; reflexivity).
  split; [exact E|].
  exact (processCommand_answer_decodes demoAccepted CmdHeader demoAddr O csStopped demoNet E).
Defined.

(** [Start] for an address that no connection was accepted from. *)
Lemma handleCommand_unknown_client_witness :
clients demoServer !! demoAddr = None /\
handleCommand demoServer demoAddr CmdStart 1 demoNet = Panic /\
handleCommand demoServer demoAddr CmdStart 2 demoNet = Ret (demoServer, demoNet, Return).
Proof.
  assert (E : clients demoServer !! demoAddr = None) by (vm_compute; reflexivity).
  split; [exact E|]. split.
  - exact (handleCommand_unknown_client demoServer CmdStart demoAddr 1 demoNet E).
  - exact (handleCommand_unknown_client demoServer CmdStart demoAddr 2 demoNet E).
Defined.

(** [Start], [Stop] and the unknown command 7, then eight stray bytes. *)
Lemma handleConnection_answers_witness :
let cs := [(CmdStart, 1); (CmdStop, 1); (7, 1)] in
let net' := written O (resultPacket 0 "invalid command")
              (written O (resultPacket 0 "client already stopped")
                 (written O (resultPacket 0 "OK") demoNet)) in
Forall (fun c => u64 (snd c) = streamType demoServer) cs /\
handleConnection demoServer O (commandBytes cs ++ BigEndian.PutUint64 5) demoNet
= Ret (demoAccepted, <[O := conn_Close (net' O)]> net').
Proof.
  assert (Hall : Forall (fun c => u64 (snd c) = streamType demoServer)
                   [(CmdStart, 1); (CmdStop, 1); (7, 1)])
    by (repeat constructor).
  assert (Hrest : (List.length (BigEndian.PutUint64 5) < 16)%nat) by (cbn; lia).
  split; [exact Hall|].
  exact (handleConnection_answers demoServer O [(CmdStart, 1); (CmdStop, 1); (7, 1)]
           (BigEndian.PutUint64 5) demoNet Hall Hrest).
Defined.

(** Connections 1 and 2 come from the same address. *)
Lemma answers_routed_by_address_witness :
conn_RemoteAddr (demoNet 1%nat) = conn_RemoteAddr (demoNet 2%nat) /\
exists net',
  run (demoServer, demoNet) [Accept 1%nat; Accept 2%nat; Command 1%nat CmdStart 1]
  = Ret (set_clients (<[conn_RemoteAddr (demoNet 2%nat)
                        := {| conn := Some 2%nat; status := csStopped |}]>
                        (clients demoServer)) demoServer, net') /\
  net' = written 2%nat (resultPacket 0 "OK") demoNet /\
  net' 1%nat = demoNet 1%nat.
Proof.
  assert (Hne : 1%nat <> 2%nat) by discriminate.
  split; [reflexivity|].
  exact (answers_routed_by_address demoServer demoNet 1%nat 2%nat CmdStart Hne eq_refl).
Defined.

(** A run that closes connection 0: its record stays in the table. *)
Lemma run_keeps_clients_witness :
let es := [Accept 1%nat; Command O CmdStart 2; CommitTx] in
exists s' net',
  run (demoAccepted, demoNet) es = Ret (s', net') /\
  wire_closed (net' O) = true /\
  is_Some (clients demoAccepted !! demoAddr) /\
  (forall clientId, is_Some (clients demoAccepted !! clientId) ->
                    is_Some (clients s' !! clientId)) /\
  streamType s' = streamType demoAccepted.
Proof.
  intros es.
  destruct (run (demoAccepted, demoNet) es) as [[s' net']| |] eqn:E;
    [|vm_compute in E; discriminate..].
  exists s', net'. split; [reflexivity|]. split.
  - assert (Hn : net' O = conn_Close (demoNet O))
      by (vm_compute in E; inversion E; reflexivity).
    rewrite Hn. reflexivity.
  - split; [vm_compute; eauto|].
    exact (run_keeps_clients es demoAccepted demoNet s' net' E).
Defined.

(** The failure result, read after its tag, with one byte behind it. *)
Lemma readResultEntry_encoded_witness :
isEntry demoFailure = ClientRead.PtResult /\
errorStr demoFailure <> [] /\
length demoFailure = Z.of_nat (List.length (errorStr demoFailure)) + 9 /\
ClientRead.readResultEntry (drop 1 (encodeResultEntryToBinary demoFailure) ++ ["001"%byte])
= (demoFailure, None, ["001"%byte]).
Proof.
  assert (Hnum : 0 <= errorNum demoFailure < 2 ^ 32) by (cbn; lia).
  assert (Hne : errorStr demoFailure <> []) by discriminate.
  assert (Hlen : length demoFailure = Z.of_nat (List.length (errorStr demoFailure)) + 9)
    by reflexivity.
  assert (Hmax : length demoFailure < 2 ^ 32) by (cbn; lia).
  split; [reflexivity|]. split; [exact Hne|]. split; [exact Hlen|].
  exact (readResultEntry_encoded demoFailure ["001"%byte] eq_refl Hnum Hne Hlen Hmax).
Defined.

(** Length fields 5 and 9. *)
Lemma readResultEntry_short_witness :
ClientRead.readResultEntry
  ["000"; "000"; "000"; "005"; "000"; "000"; "000"; "000"; "079"; "075"]%byte
= (ResultEntry_zero, Some "error reading result entry"%string, ["079"; "075"]%byte) /\
ClientRead.readResultEntry
  ["000"; "000"; "000"; "009"; "000"; "000"; "000"; "000"; "079"; "075"]%byte
= (ResultEntry_zero, Some "invalid binary result entry"%string, ["079"; "075"]%byte).
Proof.
  assert (H5 : 5 <= 9) by lia. assert (H9 : 9 <= 9) by lia.
  split.
  - exact (readResultEntry_short "000" "000" "000" "005" "000" "000" "000" "000"
             ["079"; "075"]%byte 5 eq_refl H5).
  - exact (readResultEntry_short "000" "000" "000" "009" "000" "000" "000" "000"
             ["079"; "075"]%byte 9 eq_refl H9).
Defined.


(** The stray byte 7 before an "OK". *)
Lemma readEntries_skips_unknown_witness :
ClientRead.readEntries (@nil byte) (@nil byte) demoDecode demoDecode (Some O)
  ("007"%byte :: encodeResultEntryToBinary demoOk) demoChannels demoNet
= ClientRead.readEntries (@nil byte) (@nil byte) demoDecode demoDecode (Some O)
    (encodeResultEntryToBinary demoOk) demoChannels demoNet.
Proof.
  exact (readEntries_skips_unknown (@nil byte) (@nil byte) demoDecode demoDecode (Some O)
           "007"%byte (encodeResultEntryToBinary demoOk) demoChannels demoNet
           ltac:(discriminate) ltac:(discriminate) ltac:(discriminate)).
Defined.

(** A data packet of length 19: two bytes of payload, one byte behind. *)
Lemma readDataEntry_framing_witness :
List.length demoFixed = 16%nat /\
BigEndian.Uint32 (take 4 demoFixed) = Some 19 /\
ClientRead.readDataEntry (@nil byte) demoDecode
  (demoFixed ++ ["001"; "002"]%byte ++ ["009"%byte])
= (ClientRead.PtData :: demoFixed ++ ["001"; "002"]%byte, None, ["009"%byte]).
Proof.
  assert (Hf : List.length demoFixed = 16%nat) by reflexivity.
  assert (HL : BigEndian.Uint32 (take 4 demoFixed) = Some 19) by (vm_compute; reflexivity).
  split; [exact Hf|]. split; [exact HL|].
  destruct (readDataEntry_framing (@nil byte) demoDecode demoFixed ["001"; "002"]%byte
              ["009"%byte] 19 Hf HL) as [_ Hok].
  exact (Hok ltac:(lia) eq_refl).
Defined.

(** [Stop] on a closed connection. *)
Lemma ExecCommand_write_error_witness :
Client.conn demoClient = Some O /\
snd (conn_Write (demoClosedNet O) (BigEndian.PutUint64 (u64 CmdStop)))
= Some "use of closed network connection"%string /\
Client.ExecCommand demoClient CmdStop demoClosedNet
= Ret (demoClient, written O (BigEndian.PutUint64 (u64 CmdStop)) demoClosedNet,
       Some "use of closed network connection"%string).
Proof.
  assert (Hcmd : CmdStart <= CmdStop <= CmdHeader) by (unfold CmdStart, CmdStop, CmdHeader; lia).
  split; [reflexivity|]. split; [reflexivity|].
  exact (ExecCommand_write_error demoClient CmdStop O demoClosedNet
           "use of closed network connection"%string Hcmd eq_refl eq_refl).
Defined.

(** [Header] with a success result and a header queued. *)
Lemma ExecCommand_success_witness :
let net' := written O (BigEndian.PutUint64 StSequencer)
              (written O (BigEndian.PutUint64 CmdHeader) demoNet) in
Client.sendCommand demoClientOk CmdHeader demoNet = Ret (net', None) /\
Client.ExecCommand demoClientOk CmdHeader demoNet
= Ret (Client.set_Header ["001"%byte]
         (Client.set_headers [] (Client.set_results [] demoClientOk)), net', None).
Proof.
  assert (Hcmd : CmdStart <= CmdHeader <= CmdHeader) by (unfold CmdStart, CmdHeader; lia).
  split; [reflexivity|].
  exact (ExecCommand_success demoClientOk CmdHeader demoNet
           (written O (BigEndian.PutUint64 StSequencer)
              (written O (BigEndian.PutUint64 CmdHeader) demoNet))
           demoOk [] Hcmd eq_refl eq_refl eq_refl).
Defined.

(** [Start] from entry 7: three words on the wire. *)
Lemma sendCommand_wire_witness :
Client.conn demoClientOk = Some O /\
wire_closed (demoNet O) = false /\
exists net',
  Client.sendCommand demoClientOk CmdStart demoNet = Ret (net', None) /\
  wire_sent (net' O)
  = wire_sent (demoNet O) ++ BigEndian.PutUint64 (u64 CmdStart)
    ++ BigEndian.PutUint64 (u64 (Client.streamType demoClientOk))
    ++ BigEndian.PutUint64 (u64 (Client.FromEntry demoClientOk)) /\
  wire_closed (net' O) = false /\
  forall h', h' <> O -> net' h' = demoNet h'.
Proof.
  split; [reflexivity|]. split; [reflexivity|].
  exact (sendCommand_wire demoClientOk CmdStart O demoNet eq_refl eq_refl).
Defined.

(** Entry 5 where entry 3 is expected. *)
Lemma check_catches_entry_gap_witness :
let e := {| Main.Number := 5; Main.Length := 17; Main.Type_ := Main.EtL2Tx; Main.Data := [] |} in
Main.Number e <> Main.expectedEntry Main.sanity_init 3 /\
exists g',
  Main.checkEntryBlockSanity demoEtBookmark Main.sanity_init e 3 100
  = Ret (g', Some "sanity check failed for entry sequence"%string) /\
  Main.expectedEntry g' 3 = 3.
Proof.
  intros e.
  assert (Hne : Main.Number e <> Main.expectedEntry Main.sanity_init 3) by (cbn; lia).
  split; [exact Hne|].
  exact (check_catches_entry_gap demoEtBookmark Main.sanity_init e 3 100
           ltac:(lia) ltac:(cbn; lia) Hne).
Defined.

(** Entries 3, 4 and 5 of a file of 100 entries; block 7 and bookmark 9
    are the first ones seen. *)
Lemma checkAll_contiguous_witness :
exists g',
  Main.checkAll demoEtBookmark Main.sanity_init demoEntries 3 100 = Ret (g', None) /\
  Main.expectedEntry g' 3 = 6.
Proof.
  assert (Hall : forall i e, demoEntries !! i = Some e ->
            Main.Number e = 3 + Z.of_nat i /\
            (Main.Type_ e = Main.EtL2BlockStart -> (16 <= List.length (Main.Data e))%nat) /\
            (Main.Type_ e = demoEtBookmark -> (9 <= List.length (Main.Data e))%nat)).
  { intros [|[|[|i]]] e He; inversion He; subst; cbn;
      (split; [reflexivity|]); split; intros Ht; try discriminate Ht; lia. }
  exact (checkAll_contiguous demoEtBookmark demoEntries 3 100 ltac:(lia) Hall
           ltac:(cbn; lia) ltac:(lia)).
Defined.
